(** * gitdb: the database interfaces of [gitdb/db/interface.py]

    The module under study declares the building blocks of an object
    database: the read interface [ObjectDBR], the write interface
    [ObjectDBW], [CachingDB], the [RefSpec] container and the result
    records [PushInfo] and [FetchInfo].  Its behaviour is almost entirely
    a matter of Python's object model (attribute resolution through the
    class chain, [__slots__], special methods, exceptions), so the
    development first fixes a small executable model of that object model
    and then transcribes the classes of the module method by method. *)

From Stdlib Require Import String Ascii ZArith List Bool Lia.
From Stdlib Require DecimalString.
From Stdlib.Strings Require Byte.
Import ListNotations.
Set Warnings "-register-all".
Local Open Scope string_scope.

(* ================================================================= *)
(** ** Values, exceptions and results *)

(** Python values that the module handles.  An instance is its class
    name together with its attribute store (the values of its slots and
    of its [__dict__], when it has one).  [VBound r m] is the bound
    method obtained by reading the method [m] off the object [r]. *)
Inductive value : Type :=
| VNone
| VBool (b : bool)
| VInt (n : Z)
| VStr (s : string)
| VBound (receiver : value) (method : string)
| VInst (cls : string) (attrs : list (string * value)).

Inductive exc_class : Type :=
| NotImplementedError
| AttributeError
| ValueError
| TypeError
| RuntimeError
| NameError.

Record exn : Type := Exn { exn_class : exc_class; exn_msg : string }.

Inductive result (A : Type) : Type :=
| Return (a : A)
| Raise (e : exn).
Arguments Return {A} a.
Arguments Raise {A} e.

Definition raises {A} (r : result A) (c : exc_class) : Prop :=
  exists msg, r = Raise (Exn c msg).

Definition is_None (v : value) : bool :=
  match v with VNone => true | _ => false end.

(** The truth value of a value when no truth hook of a class is
    involved: the one of [None], of a bool, an int and a str, and the
    default, true, of an object.  [builtin_truth] below is [bool(v)] in
    full, with the hooks of the class of an instance. *)
Definition truthy (v : value) : bool :=
  match v with
  | VNone => false
  | VBool b => b
  | VInt n => negb (n =? 0)%Z
  | VStr s => negb (s =? "")
  | VBound _ _ => true
  | VInst _ _ => true
  end.

Definition is_instance (v : value) : bool :=
  match v with VInst _ _ => true | _ => false end.

(** [type(v).__name__] *)
Definition type_name (v : value) : string :=
  match v with
  | VNone => "NoneType"
  | VBool _ => "bool"
  | VInt _ => "int"
  | VStr _ => "str"
  | VBound _ _ => "method"
  | VInst cn _ => cn
  end.

Definition string_of_Z (n : Z) : string :=
  DecimalString.NilZero.string_of_int (Z.to_int n).

(* ================================================================= *)
(** ** Association lists: class bodies and attribute stores *)

Fixpoint assoc {A} (k : string) (l : list (string * A)) : option A :=
  match l with
  | [] => None
  | (k', a) :: l' => if k =? k' then Some a else assoc k l'
  end.

Fixpoint update {A} (k : string) (a : A) (l : list (string * A))
  : list (string * A) :=
  match l with
  | [] => [(k, a)]
  | (k', a') :: l' =>
      if k =? k' then (k, a) :: l' else (k', a') :: update k a l'
  end.

Definition mem (k : string) (l : list string) : bool :=
  existsb (String.eqb k) l.

(** [range(n)]. *)
Definition range (n : nat) : list Z := map Z.of_nat (seq 0 n).

(** Tuple unpacking [a, b, ... = values]. *)
Definition unpack {A} (names : list string) (values : list A)
  : result (list (string * A)) :=
  if (length names =? length values)%nat
  then Return (combine names values)
  else Raise (Exn ValueError "wrong number of values to unpack").

(* ================================================================= *)
(** ** The object model *)

(** What a method body may ask of the interpreter: read and write an
    attribute, call a method by name, the builtin [str] and the truth
    test of an [if]. *)
Record interp : Type := Interp {
  i_load  : value -> string -> result value;
  i_store : value -> string -> value -> result value;
  i_call  : value -> string -> list value -> result value * value;
  i_str   : value -> result string;
  i_truth : value -> result bool
}.

(** A function defined in a class body: given the interpreter, [self]
    and the remaining arguments it yields a result or an exception,
    together with [self] as the body left it. *)
Definition pyfun : Type := interp -> value -> list value -> result value * value.

Inductive member : Type :=
| Fn (f : pyfun)
| Attr (v : value).

(** A class: its name, its base (single inheritance, rooted in
    [object]), its [__slots__] declaration when it has one, and the
    names bound in its body. *)
Inductive pyclass : Type :=
| PyObject
| PyClass (name : string) (base : pyclass) (slots : option (list string))
          (body : list (string * member)).

Definition class_name (c : pyclass) : string :=
  match c with PyObject => "object" | PyClass n _ _ _ => n end.

Fixpoint find_class (ct : list pyclass) (n : string) : option pyclass :=
  match ct with
  | [] => None
  | c :: ct' => if n =? class_name c then Some c else find_class ct' n
  end.

(** An instance has a [__dict__] as soon as one class of its chain
    omits [__slots__]; [object] itself has none. *)
Fixpoint has_dict (c : pyclass) : bool :=
  match c with
  | PyObject => false
  | PyClass _ base None _ => true
  | PyClass _ base (Some _) _ => has_dict base
  end.

(** [object.__str__]: the default representation (the address part of
    CPython's text is left out). *)
Definition object___str__ : pyfun :=
  fun _ self args =>
    match args with
    | [] => (Return (VStr ("<" ++ match self with
                                  | VInst cn _ => cn
                                  | _ => "object"
                                  end ++ " object>")), self)
    | _ => (Raise (Exn TypeError "__str__() takes no arguments"), self)
    end.

(** [object.__init__]: accepts no argument beyond [self]. *)
Definition object___init__ : pyfun :=
  fun _ self args =>
    match args with
    | [] => (Return VNone, self)
    | _ => (Raise (Exn TypeError "object() takes no parameters"), self)
    end.

Inductive type_attr : Type :=
| TSlot
| TFn (f : pyfun)
| TAttr (v : value).

(** Lookup of a name along the class chain, most derived class first. *)
Fixpoint type_lookup (c : pyclass) (name : string) : option type_attr :=
  match c with
  | PyObject =>
      if name =? "__str__" then Some (TFn object___str__)
      else if name =? "__init__" then Some (TFn object___init__)
      else None
  | PyClass _ base slots body =>
      match assoc name body with
      | Some (Fn f) => Some (TFn f)
      | Some (Attr v) => Some (TAttr v)
      | None =>
          match slots with
          | Some sl => if mem name sl then Some TSlot
                       else type_lookup base name
          | None => type_lookup base name
          end
      end
  end.

Definition no_attribute (cn name : string) : exn :=
  Exn AttributeError ("'" ++ cn ++ "' object has no attribute '" ++ name ++ "'").

Definition unknown_class (cn : string) : exn :=
  Exn NameError ("name '" ++ cn ++ "' is not defined").

Inductive attr_res : Type :=
| ABound (f : pyfun)
| AValue (v : value).

(** No class of the chain of [c], [object] apart, binds [name], in its
    body or as a slot. *)
Fixpoint unbound (c : pyclass) (name : string) : Prop :=
  match c with
  | PyObject => True
  | PyClass _ base slots body =>
      assoc name body = None
      /\ match slots with Some sl => mem name sl = false | None => True end
      /\ unbound base name
  end.

(** The classes that keep the attribute access of [object]: they define
    neither [__getattribute__] nor [__getattr__].  [resolve], [load] and
    [invoke] below are the access of these classes; every class of the
    module is one. *)
Definition default_access (c : pyclass) : Prop :=
  unbound c "__getattribute__" /\ unbound c "__getattr__".

(** [obj.name] as [object.__getattribute__] resolves it: a slot of the
    type first, then the instance store, then the other names of the
    type. *)
Definition resolve (ct : list pyclass) (obj : value) (name : string)
  : result attr_res :=
  match obj with
  | VInst cn attrs =>
      match find_class ct cn with
      | None => Raise (unknown_class cn)
      | Some c =>
          match type_lookup c name with
          | Some TSlot =>
              match assoc name attrs with
              | Some v => Return (AValue v)
              | None => Raise (Exn AttributeError name)
              end
          | other =>
              match assoc name attrs with
              | Some v => Return (AValue v)
              | None =>
                  match other with
                  | Some (TFn f) => Return (ABound f)
                  | Some (TAttr v) => Return (AValue v)
                  | _ => Raise (no_attribute cn name)
                  end
              end
          end
      end
  | _ => Raise (no_attribute "builtin" name)
  end.

(** Special methods ([__contains__], [__str__], [__init__]) are looked
    up on the type only. *)
Definition resolve_special (ct : list pyclass) (obj : value) (name : string)
  : result attr_res :=
  match obj with
  | VInst cn attrs =>
      match find_class ct cn with
      | None => Raise (unknown_class cn)
      | Some c =>
          match type_lookup c name with
          | Some (TFn f) => Return (ABound f)
          | Some (TAttr v) => Return (AValue v)
          | Some TSlot =>
              match assoc name attrs with
              | Some v => Return (AValue v)
              | None => Raise (Exn AttributeError name)
              end
          | None => Raise (no_attribute cn name)
          end
      end
  | _ => Raise (no_attribute "builtin" name)
  end.

Definition load (ct : list pyclass) (obj : value) (name : string)
  : result value :=
  match resolve ct obj name with
  | Return (ABound _) => Return (VBound obj name)
  | Return (AValue v) => Return v
  | Raise e => Raise e
  end.

(** [obj.name = v] as [object.__setattr__] performs it: into the slot
    when the type declares one, into the [__dict__] when the instance
    has one, and otherwise not at all.  It is the assignment of the
    classes that define no [__setattr__], as every class of the module. *)
Definition store (ct : list pyclass) (obj : value) (name : string) (v : value)
  : result value :=
  match obj with
  | VInst cn attrs =>
      match find_class ct cn with
      | None => Raise (unknown_class cn)
      | Some c =>
          match type_lookup c name with
          | Some TSlot => Return (VInst cn (update name v attrs))
          | Some _ =>
              if has_dict c then Return (VInst cn (update name v attrs))
              else Raise (Exn AttributeError
                     ("'" ++ cn ++ "' object attribute '" ++ name
                          ++ "' is read-only"))
          | None =>
              if has_dict c then Return (VInst cn (update name v attrs))
              else Raise (no_attribute cn name)
          end
      end
  | _ => Raise (no_attribute "builtin" name)
  end.

Definition recursion_limit : exn :=
  Exn RuntimeError "maximum recursion depth exceeded".

Definition not_callable : exn := Exn TypeError "object is not callable".

(** The builtin [str(v)], given the way to call [type(v).__str__]. *)
Definition builtin_str
  (special : value -> string -> list value -> result value * value)
  (v : value) : result string :=
  match v with
  | VNone => Return "None"
  | VBool b => Return (if b then "True" else "False")
  | VInt n => Return (string_of_Z n)
  | VStr s => Return s
  | VBound _ m => Return ("<bound method " ++ m ++ ">")
  | VInst _ _ =>
      match fst (special v "__str__" []) with
      | Return (VStr s) => Return s
      | Return w =>
          Raise (Exn TypeError
                   ("__str__ returned non-string (type " ++ type_name w ++ ")"))
      | Raise e => Raise e
      end
  end.

(** Whether the type of [v] binds [name]. *)
Definition type_binds (ct : list pyclass) (v : value) (name : string) : bool :=
  match v with
  | VInst cn _ =>
      match find_class ct cn with
      | Some c =>
          match type_lookup c name with Some _ => true | None => false end
      | None => false
      end
  | _ => false
  end.

(** The truth test [bool(v)], given the way to call a special method of
    [type(v)]: an instance answers through [__bool__], which must return
    a bool, or else through [__len__], which must return a number that
    is not negative; an instance of a class with neither is true. *)
Definition builtin_truth (ct : list pyclass)
  (special : value -> string -> list value -> result value * value)
  (v : value) : result bool :=
  match v with
  | VInst _ _ =>
      if type_binds ct v "__bool__" then
        match fst (special v "__bool__" []) with
        | Return (VBool b) => Return b
        | Return w =>
            Raise (Exn TypeError
                     ("__bool__ should return bool, returned " ++ type_name w))
        | Raise e => Raise e
        end
      else if type_binds ct v "__len__" then
        match fst (special v "__len__" []) with
        | Return (VInt n) =>
            if (n <? 0)%Z
            then Raise (Exn ValueError "__len__() should return >= 0")
            else Return (negb (n =? 0)%Z)
        | Return (VBool b) => Return b
        | Return w =>
            Raise (Exn TypeError
                     ("'" ++ type_name w
                          ++ "' object cannot be interpreted as an integer"))
        | Raise e => Raise e
        end
      else Return (truthy v)
  | _ => Return (truthy v)
  end.

(** Calling [obj.name(args)] ([special = false]) or the special method
    [type(obj).name(obj, args)] ([special = true]) with [depth] frames
    left on the interpreter's stack.  A method found on the type runs on
    [obj] and may change it; a callable stored on the instance belongs
    to another object and leaves [obj] as it is. *)
Fixpoint invoke (ct : list pyclass) (depth : nat) (special : bool)
  (obj : value) (name : string) (args : list value) {struct depth}
  : result value * value :=
  match (if special then resolve_special ct obj name
         else resolve ct obj name) with
  | Raise e => (Raise e, obj)
  | Return (ABound f) =>
      match depth with
      | O => (Raise recursion_limit, obj)
      | S d =>
          f (Interp (load ct) (store ct) (invoke ct d false)
                    (builtin_str (invoke ct d true))
                    (builtin_truth ct (invoke ct d true)))
            obj args
      end
  | Return (AValue (VBound r m)) =>
      match depth with
      | O => (Raise recursion_limit, obj)
      | S d => (fst (invoke ct d false r m args), obj)
      end
  | Return (AValue _) => (Raise not_callable, obj)
  end.

Definition interp_at (ct : list pyclass) (depth : nat) : interp :=
  Interp (load ct) (store ct) (invoke ct depth false)
         (builtin_str (invoke ct depth true))
         (builtin_truth ct (invoke ct depth true)).

(** [obj.name(args)] and [type(obj).name(obj, args)]. *)
Definition call_method (ct : list pyclass) (depth : nat)
  : value -> string -> list value -> result value * value :=
  invoke ct depth false.

Definition call_special (ct : list pyclass) (depth : nat)
  : value -> string -> list value -> result value * value :=
  invoke ct depth true.

(** [str(v)] at the top level. *)
Definition py_str (ct : list pyclass) (depth : nat) (v : value) : result string :=
  builtin_str (call_special ct depth) v.

(** [bool(v)] at the top level. *)
Definition py_bool (ct : list pyclass) (depth : nat) (v : value) : result bool :=
  builtin_truth ct (call_special ct depth) v.

(** [x in container]: [type(container).__contains__], its result taken
    as a truth value.  A type without [__contains__] would be iterated
    over; no class here is iterable, which is a [TypeError]. *)
Definition py_in (ct : list pyclass) (depth : nat) (x container : value)
  : result bool :=
  match resolve_special ct container "__contains__" with
  | Raise _ => Raise (Exn TypeError "argument is not iterable")
  | Return _ =>
      match fst (call_special ct depth container "__contains__" [x]) with
      | Return v => py_bool ct depth v
      | Raise e => Raise e
      end
  end.

(** [cls(args)]: a fresh instance, initialised by [__init__]. *)
Definition instantiate (ct : list pyclass) (depth : nat) (cn : string)
  (args : list value) : result value :=
  match find_class ct cn with
  | None => Raise (unknown_class cn)
  | Some _ =>
      match call_special ct depth (VInst cn []) "__init__" args with
      | (Return VNone, self) => Return self
      | (Return _, _) => Raise (Exn TypeError "__init__() should return None")
      | (Raise e, _) => Raise e
      end
  end.

(* ================================================================= *)
(** ** Method bodies *)

(** A method body is a computation over [self]: it ends with a value or
    an exception and leaves [self] in some state. *)
Definition M (A : Type) : Type := value -> result A * value.

Definition ret {A} (a : A) : M A := fun self => (Return a, self).

Definition raise {A} (e : exn) : M A := fun self => (Raise e, self).

Definition bind {A B} (m : M A) (k : A -> M B) : M B :=
  fun self =>
    match m self with
    | (Return a, self') => k a self'
    | (Raise e, self') => (Raise e, self')
    end.

Notation "x <- m ;; k" := (bind m (fun x => k))
  (at level 61, m at next level, right associativity).
Notation "m ;;; k" := (bind m (fun _ => k))
  (at level 61, right associativity).

(** [self.name] and [self.name = v]. *)
Definition get_self (I : interp) (name : string) : M value :=
  fun self => (i_load I self name, self).

Definition set_self (I : interp) (name : string) (v : value) : M unit :=
  fun self =>
    match i_store I self name v with
    | Return self' => (Return tt, self')
    | Raise e => (Raise e, self)
    end.

(** [self.name(args)]. *)
Definition call_self (I : interp) (name : string) (args : list value) : M value :=
  fun self => i_call I self name args.

(** A pure builtin applied inside a body. *)
Definition lift {A} (r : result A) : M A := fun self => (r, self).

(** Binding of the positional arguments of a call to the parameters of a
    [def]; a call with another number of arguments is a [TypeError]. *)
Definition arity_error : exn := Exn TypeError "wrong number of arguments".

Definition def0 (body : interp -> M value) : pyfun :=
  fun I self args =>
    match args with
    | [] => body I self
    | _ => (Raise arity_error, self)
    end.

Definition def1 (body : interp -> value -> M value) : pyfun :=
  fun I self args =>
    match args with
    | [a] => body I a self
    | _ => (Raise arity_error, self)
    end.

Definition def2 (body : interp -> value -> value -> M value) : pyfun :=
  fun I self args =>
    match args with
    | [a; b] => body I a b self
    | _ => (Raise arity_error, self)
    end.

(** [def f(self, a=dflt)]. *)
Definition def1_opt (dflt : value) (body : interp -> value -> M value) : pyfun :=
  fun I self args =>
    match args with
    | [] => body I dflt self
    | [a] => body I a self
    | _ => (Raise arity_error, self)
    end.

(** [def f(self, a, b, c=dflt)]. *)
Definition def3_opt (dflt : value)
  (body : interp -> value -> value -> value -> M value) : pyfun :=
  fun I self args =>
    match args with
    | [a; b] => body I a b dflt self
    | [a; b; c] => body I a b c self
    | _ => (Raise arity_error, self)
    end.

(* ================================================================= *)
(** ** class ObjectDBR *)

Definition to_be_implemented : exn :=
  Exn NotImplementedError "To be implemented in subclass".

Definition not_implemented : exn := Exn NotImplementedError "".

(** [return self.has_obj(sha)] *)
Definition ObjectDBR___contains__ (I : interp) (sha : value) : M value :=
  call_self I "has_obj" [sha].

Definition ObjectDBR_has_object (I : interp) (sha : value) : M value :=
  raise to_be_implemented.

Definition ObjectDBR_has_object_async (I : interp) (reader : value) : M value :=
  raise to_be_implemented.

Definition ObjectDBR_info (I : interp) (sha : value) : M value :=
  raise to_be_implemented.

Definition ObjectDBR_info_async (I : interp) (reader : value) : M value :=
  raise to_be_implemented.

Definition ObjectDBR_stream (I : interp) (sha : value) : M value :=
  raise to_be_implemented.

Definition ObjectDBR_stream_async (I : interp) (reader : value) : M value :=
  raise to_be_implemented.

Definition ObjectDBR_size (I : interp) : M value :=
  raise not_implemented.

Definition ObjectDBR_sha_iter (I : interp) : M value :=
  raise not_implemented.

Definition ObjectDBR_partial_to_complete_sha_hex (I : interp)
  (partial_hexsha : value) : M value :=
  raise not_implemented.

(** The body is a docstring only: the call falls off its end. *)
Definition ObjectDBR_partial_to_complete_sha (I : interp)
  (partial_binsha canonical_length : value) : M value :=
  ret VNone.

Definition ObjectDBR : pyclass :=
  PyClass "ObjectDBR" PyObject None
    [ ("__contains__", Fn (def1 ObjectDBR___contains__));
      ("has_object", Fn (def1 ObjectDBR_has_object));
      ("has_object_async", Fn (def1 ObjectDBR_has_object_async));
      ("info", Fn (def1 ObjectDBR_info));
      ("info_async", Fn (def1 ObjectDBR_info_async));
      ("stream", Fn (def1 ObjectDBR_stream));
      ("stream_async", Fn (def1 ObjectDBR_stream_async));
      ("size", Fn (def0 ObjectDBR_size));
      ("sha_iter", Fn (def0 ObjectDBR_sha_iter));
      ("partial_to_complete_sha_hex",
        Fn (def1 ObjectDBR_partial_to_complete_sha_hex));
      ("partial_to_complete_sha",
        Fn (def2 ObjectDBR_partial_to_complete_sha)) ].

(** The query interface of [ObjectDBR] apart from
    [partial_to_complete_sha], each name with the number of arguments it
    takes. *)
Definition ObjectDBR_other_queries : list (string * nat) :=
  [ ("has_object", 1); ("has_object_async", 1); ("info", 1);
    ("info_async", 1); ("stream", 1); ("stream_async", 1);
    ("size", 0); ("sha_iter", 0); ("partial_to_complete_sha_hex", 1) ]%nat.

(* ================================================================= *)
(** ** class ObjectDBW *)

Definition ObjectDBW_set_ostream (I : interp) (stream : value) : M value :=
  raise to_be_implemented.

Definition ObjectDBW_ostream (I : interp) : M value :=
  raise to_be_implemented.

Definition ObjectDBW_store (I : interp) (istream : value) : M value :=
  raise to_be_implemented.

Definition ObjectDBW_store_async (I : interp) (reader : value) : M value :=
  raise to_be_implemented.

Definition ObjectDBW : pyclass :=
  PyClass "ObjectDBW" PyObject None
    [ ("set_ostream", Fn (def1 ObjectDBW_set_ostream));
      ("ostream", Fn (def0 ObjectDBW_ostream));
      ("store", Fn (def1 ObjectDBW_store));
      ("store_async", Fn (def1 ObjectDBW_store_async)) ].

(* ================================================================= *)
(** ** class CachingDB *)

(** [def update_cache(self, force=False)]: a docstring and nothing
    else. *)
Definition CachingDB_update_cache (I : interp) (force : value) : M value :=
  ret VNone.

Definition CachingDB : pyclass :=
  PyClass "CachingDB" PyObject None
    [ ("update_cache", Fn (def1_opt (VBool false) CachingDB_update_cache)) ].

(* ================================================================= *)
(** ** class RefSpec *)

Definition RefSpec___init__ (I : interp) (source destination force : value)
  : M value :=
  set_self I "source" source ;;;
  set_self I "destination" destination ;;;
  set_self I "force" force ;;;
  d <- get_self I "destination" ;;
  if is_None d
  then raise (Exn ValueError "Destination must be set")
  else ret VNone.

(** The local [res] of [__str__]: [ "%s%s:%s" % (p, s, d) ]. *)
Definition RefSpec_res (I : interp) : M string :=
  src <- get_self I "source" ;;
  s <- lift (i_str I src) ;;
  src' <- get_self I "source" ;;
  let s := if is_None src' then "" else s in
  dst <- get_self I "destination" ;;
  d <- lift (i_str I dst) ;;
  f <- get_self I "force" ;;
  b <- lift (i_truth I f) ;;
  let p := if b then "+" else "" in
  ret (p ++ s ++ ":" ++ d).

(** [__str__] computes [res] and ends without a [return]. *)
Definition RefSpec___str__ (I : interp) : M value :=
  res <- RefSpec_res I ;;
  ret VNone.

Definition RefSpec_delete_destination (I : interp) : M value :=
  src <- get_self I "source" ;;
  ret (VBool (is_None src)).

Definition RefSpec : pyclass :=
  PyClass "RefSpec" PyObject (Some ["source"; "destination"; "force"])
    [ ("__init__", Fn (def3_opt (VBool false) RefSpec___init__));
      ("__str__", Fn (def0 RefSpec___str__));
      ("delete_destination", Fn (def0 RefSpec_delete_destination)) ].

(** A source that is a reference name, or [None]. *)
Definition source_value (source : option string) : value :=
  match source with Some s => VStr s | None => VNone end.

(** The instance that [RefSpec(source, destination, force)] yields. *)
Definition refspec (source destination force : value) : value :=
  VInst "RefSpec"
    [("source", source); ("destination", destination); ("force", force)].

(* ================================================================= *)
(** ** class PushInfo and class FetchInfo *)

(** [ [ 1 << x for x in range(n) ] ] *)
Definition flag_values (n : nat) : list member :=
  map (fun x => Attr (VInt (Z.shiftl 1 x))) (range n).

Definition PushInfo_flag_names : list string :=
  [ "NEW_TAG"; "NEW_HEAD"; "NO_MATCH"; "REJECTED"; "REMOTE_REJECTED";
    "REMOTE_FAILURE"; "DELETED"; "FORCED_UPDATE"; "FAST_FORWARD";
    "UP_TO_DATE"; "ERROR" ].

Definition FetchInfo_flag_names : list string :=
  [ "NEW_TAG"; "NEW_HEAD"; "HEAD_UPTODATE"; "TAG_UPDATE"; "REJECTED";
    "FORCED_UPDATE"; "FAST_FORWARD"; "ERROR" ].

(** The class body: the unpacking assignment of the flags. *)
Definition PushInfo_body : result (list (string * member)) :=
  unpack PushInfo_flag_names (flag_values 11).

Definition FetchInfo_body : result (list (string * member)) :=
  unpack FetchInfo_flag_names (flag_values 8).

Definition namespace (b : result (list (string * member)))
  : list (string * member) :=
  match b with Return l => l | Raise _ => [] end.

(** [__slots__ = tuple()] *)
Definition PushInfo : pyclass :=
  PyClass "PushInfo" PyObject (Some []) (namespace PushInfo_body).

Definition FetchInfo : pyclass :=
  PyClass "FetchInfo" PyObject (Some []) (namespace FetchInfo_body).

(** The members that the docstrings of the two classes announce. *)
Definition PushInfo_members : list string :=
  [ "flags"; "local_ref"; "remote_ref_string"; "remote_ref"; "old_commit";
    "summary" ].

Definition FetchInfo_members : list string :=
  [ "ref"; "flags"; "note"; "old_commit" ].

(** The two record classes with their announced members. *)
Definition info_classes : list (pyclass * list string) :=
  [ (PushInfo, PushInfo_members); (FetchInfo, FetchInfo_members) ].

(** The two classes with the names of their flags. *)
Definition flag_classes : list (pyclass * list string) :=
  [ (PushInfo, PushInfo_flag_names); (FetchInfo, FetchInfo_flag_names) ].

(** The integer bound to a name of a class. *)
Definition class_int (c : pyclass) (name : string) : option Z :=
  match type_lookup c name with
  | Some (TAttr (VInt n)) => Some n
  | _ => None
  end.

(** The classes of the module, as an importer sees them. *)
Definition interface : list pyclass :=
  [ ObjectDBR; ObjectDBW; CachingDB; RefSpec; PushInfo; FetchInfo ].

(* ================================================================= *)
(** ** Subclasses and objects used to exercise the interfaces *)

(** A read database that implements the query interface as the base
    class asks it to, for a store that holds no object:
    [class EmptyDB(ObjectDBR): def has_object(self, sha): return False] *)
Definition EmptyDB_has_object (I : interp) (sha : value) : M value :=
  ret (VBool false).

Definition EmptyDB : pyclass :=
  PyClass "EmptyDB" ObjectDBR None
    [ ("has_object", Fn (def1 EmptyDB_has_object)) ].

(** A result record that declares the announced members as slots:
    [class PushResult(PushInfo): __slots__ = ('flags', 'local_ref', ...)] *)
Definition PushResult : pyclass :=
  PyClass "PushResult" PushInfo (Some PushInfo_members) [].

(** A stream with a [write] method. *)
Definition Stream_write (I : interp) (data : value) : M value :=
  ret VNone.

Definition Stream : pyclass :=
  PyClass "Stream" PyObject None [ ("write", Fn (def1 Stream_write)) ].

(** The classes of the module together with the sample subclasses. *)
Definition sample_classes : list pyclass :=
  (interface ++ [EmptyDB; PushResult; Stream])%list.

(** [RefSpec("master", "refs/heads/master", True)] *)
Definition sample_refspec : value :=
  refspec (VStr "master") (VStr "refs/heads/master") (VBool true).

(* ================================================================= *)
(** ** Partial digest resolution *)

(** A digest is a binary sha of twenty bytes; a partial digest is a
    prefix of its hexadecimal representation. *)
Definition digest : Type := list Byte.byte.

Definition digest_eq_dec : forall a b : digest, {a = b} + {a <> b} :=
  list_eq_dec Byte.byte_eq_dec.

Definition hex_digit (n : N) : ascii :=
  nth (N.to_nat n) (list_ascii_of_string "0123456789abcdef") "0"%char.

(** The hexadecimal text of a binary sha, two characters a byte. *)
Fixpoint bin_to_hex (d : list Byte.byte) : string :=
  match d with
  | [] => EmptyString
  | b :: d' =>
      String (hex_digit (N.div (Byte.to_N b) 16))
        (String (hex_digit (N.modulo (Byte.to_N b) 16)) (bin_to_hex d'))
  end.

(** Modelled from the spec: the two failures of a resolution, which the
    module names in its docstrings and does not define.  The ambiguity
    reports the set of matches. *)
Inductive resolve_error : Type :=
| BadObject
| AmbiguousObjectName (matches : list digest).

(** Modelled from the spec: a digest of the key space matches a partial
    digest when the partial digest is a prefix of its hexadecimal
    representation. *)
Definition matching (keys : list digest) (p : string) (d : digest) : Prop :=
  In d keys /\ prefix p (bin_to_hex d) = true.

(** Modelled from the spec: the set of matches that a scan of the
    candidate key space for the prefix finds, each digest once. *)
Definition match_set (keys : list digest) (p : string) : list digest :=
  nodup digest_eq_dec (filter (fun d => prefix p (bin_to_hex d)) keys).

(** Modelled from the spec: the resolution of a partial digest by a
    concrete backend.  The module has only the abstract
    [ObjectDBR.partial_to_complete_sha_hex] and
    [ObjectDBR.partial_to_complete_sha]; the backends that implement them
    are not part of it.  After the spec, the operation scans the
    candidate key space for the prefix, that is the first [hex_length]
    characters of [partial_hex]; it fails with [BadObject] on no match and
    with [AmbiguousObjectName], reporting the set of matches, when more
    than one digest shares the prefix. *)
Definition resolve_partial (keys : list digest) (partial_hex : string)
  (hex_length : nat) : resolve_error + digest :=
  match match_set keys (substring 0 hex_length partial_hex) with
  | [] => inl BadObject
  | [d] => inr d
  | ms => inl (AmbiguousObjectName ms)
  end.

(** Modelled from the spec: the two entry points that the interface
    announces, one for a hexadecimal prefix and one for a binary prefix
    that comes with the length of its hexadecimal form. *)
Definition resolve_partial_hex (keys : list digest)
  (partial_hexsha : string) : resolve_error + digest :=
  resolve_partial keys partial_hexsha (String.length partial_hexsha).

Definition resolve_partial_bin (keys : list digest)
  (partial_binsha : list Byte.byte) (canonical_length : nat)
  : resolve_error + digest :=
  resolve_partial keys (bin_to_hex partial_binsha) canonical_length.

(** A binary sha of twenty bytes, given by its first byte, and a key
    space in which one object is listed twice. *)
Definition sha_of (b : Byte.byte) : digest := b :: repeat Byte.x00 19.

Definition sample_keys : list digest :=
  [ sha_of Byte.xab; sha_of Byte.xac; sha_of Byte.x1f; sha_of Byte.xab ].

(* ================================================================= *)
(** ** The output sink of a write database *)

(** Modelled from the spec: the failure of an installation, which the
    module does not define. *)
Inductive sink_error : Type :=
| CapabilityError.

Section OutputSink.

(** Whether a sink has the write capability that the database needs. *)
Variable capable : value -> bool.

(** Modelled from the spec: [set_output_sink] of a concrete write
    database.  The module has only the abstract [ObjectDBW.set_ostream],
    which raises [NotImplementedError]; the backends that implement it
    are not part of it.  After the spec, the operation installs the
    sink to which newly stored object bytes are written and returns
    the one installed before; [VNone] is the sentinel for the backend's
    default; a sink without the write capability is rejected with
    [CapabilityError].  The state is the installed sink. *)
Definition set_output_sink (sink_or_default : value) (installed : value)
  : (sink_error + value) * value :=
  if is_None sink_or_default then (inr installed, VNone)
  else if capable sink_or_default then (inr installed, sink_or_default)
  else (inl CapabilityError, installed).

End OutputSink.

(** A sink is capable of writing when a callable [write] can be read off
    it. *)
Definition has_write (ct : list pyclass) (sink : value) : bool :=
  match resolve ct sink "write" with
  | Return (ABound _) => true
  | Return (AValue (VBound _ _)) => true
  | _ => false
  end.

(* ================================================================= *)
(** ** class RootPathDB, class CompoundDB and class RepositoryPathsMixin *)

(** [super(C, self).name(args)] in a body of the class [C] whose base is
    [base]: with single inheritance, the class that follows [C] in the
    chain of [type(self)] is [base], whatever [type(self)] is. *)
Definition super_call (base : pyclass) (I : interp) (name : string)
  (args : list value) : M value :=
  fun self =>
    match type_lookup base name with
    | Some (TFn f) => f I self args
    | Some _ => (Raise not_callable, self)
    | None => (Raise (no_attribute "super" name), self)
    end.

(** [super(RootPathDB, self).__init__(root_path)] *)
Definition RootPathDB___init__ (I : interp) (root_path : value) : M value :=
  super_call PyObject I "__init__" [root_path] ;;;
  ret VNone.

Definition RootPathDB_root_path (I : interp) : M value :=
  raise not_implemented.

Definition RootPathDB_db_path (I : interp) (rela_path : value) : M value :=
  raise not_implemented.

Definition RootPathDB : pyclass :=
  PyClass "RootPathDB" PyObject None
    [ ("__init__", Fn (def1 RootPathDB___init__));
      ("root_path", Fn (def0 RootPathDB_root_path));
      ("db_path", Fn (def1 RootPathDB_db_path)) ].

Definition CompoundDB_databases (I : interp) : M value :=
  raise not_implemented.

Definition CompoundDB : pyclass :=
  PyClass "CompoundDB" PyObject None
    [ ("databases", Fn (def0 CompoundDB_databases)) ].

Definition RepositoryPathsMixin__initialize (I : interp) (path : value)
  : M value :=
  raise not_implemented.

Definition RepositoryPathsMixin_is_bare (I : interp) : M value :=
  raise not_implemented.

Definition RepositoryPathsMixin_git_path (I : interp) : M value :=
  raise not_implemented.

Definition RepositoryPathsMixin_working_tree_path (I : interp) : M value :=
  raise not_implemented.

Definition RepositoryPathsMixin_objects_path (I : interp) : M value :=
  raise not_implemented.

Definition RepositoryPathsMixin_working_dir (I : interp) : M value :=
  raise not_implemented.

Definition RepositoryPathsMixin : pyclass :=
  PyClass "RepositoryPathsMixin" PyObject None
    [ ("_initialize", Fn (def1 RepositoryPathsMixin__initialize));
      ("is_bare", Fn (def0 RepositoryPathsMixin_is_bare));
      ("git_path", Fn (def0 RepositoryPathsMixin_git_path));
      ("working_tree_path", Fn (def0 RepositoryPathsMixin_working_tree_path));
      ("objects_path", Fn (def0 RepositoryPathsMixin_objects_path));
      ("working_dir", Fn (def0 RepositoryPathsMixin_working_dir)) ].

(** The methods that the interfaces leave to subclasses by raising
    [NotImplementedError], each with the number of arguments it takes. *)
Definition abstract_methods : list (pyclass * list (string * nat)) :=
  [ (ObjectDBR, ObjectDBR_other_queries);
    (ObjectDBW,
      [ ("set_ostream", 1); ("ostream", 0); ("store", 1);
        ("store_async", 1) ]%nat);
    (RootPathDB, [ ("root_path", 0); ("db_path", 1) ]%nat);
    (CompoundDB, [ ("databases", 0) ]%nat);
    (RepositoryPathsMixin,
      [ ("_initialize", 1); ("is_bare", 0); ("git_path", 0);
        ("working_tree_path", 0); ("objects_path", 0);
        ("working_dir", 0) ]%nat) ].

(** The two methods whose body is a docstring only, each with the
    numbers of arguments it accepts. *)
Definition silent_methods : list (pyclass * string * list nat) :=
  [ (ObjectDBR, "partial_to_complete_sha", [2]%nat);
    (CachingDB, "update_cache", [0; 1]%nat) ].

(** [c] is [base] or a class derived from it that binds [name] neither in
    a body nor as a slot on the way: [c] inherits [name] from [base]. *)
Fixpoint inherits (c base : pyclass) (name : string) : Prop :=
  c = base \/
  match c with
  | PyObject => False
  | PyClass _ b slots body =>
      assoc name body = None
      /\ match slots with Some sl => mem name sl = false | None => True end
      /\ inherits b base name
  end.

(** A read database written against the name that [__contains__] uses:
    [class LegacyDB(ObjectDBR): def has_obj(self, sha): return self.known]
    with the answer kept in the attribute [known]. *)
Definition LegacyDB_has_obj (I : interp) (sha : value) : M value :=
  get_self I "known".

Definition LegacyDB : pyclass :=
  PyClass "LegacyDB" ObjectDBR None
    [ ("has_obj", Fn (def1 LegacyDB_has_obj)) ].

(** The classes of the module modelled here, with the sample subclasses. *)
Definition all_classes : list pyclass :=
  (sample_classes
     ++ [RootPathDB; CompoundDB; RepositoryPathsMixin; LegacyDB])%list.

(** The names of the slots of a [RefSpec]. *)
Definition RefSpec_slots : list string := ["source"; "destination"; "force"].

(** The value of a flag of a class, and the mask [f1 | f2 | ...] of a
    selection of flags. *)
Definition flag_value (c : pyclass) (name : string) : Z :=
  match class_int c name with Some n => n | None => 0%Z end.

Definition flag_mask (c : pyclass) (names : list string) : Z :=
  fold_right Z.lor 0%Z (map (flag_value c) names).

(* ================================================================= *)
(** * Properties *)

(** ** Attribute access on instances of a known class *)

Lemma store_slot ct cn c name v attrs :
  find_class ct cn = Some c ->
  type_lookup c name = Some TSlot ->
  store ct (VInst cn attrs) name v = Return (VInst cn (update name v attrs)).
Proof. intros Hc Hs. unfold store. now rewrite Hc, Hs. Qed.

Lemma load_slot ct cn c name v attrs :
  find_class ct cn = Some c ->
  type_lookup c name = Some TSlot ->
  assoc name attrs = Some v ->
  load ct (VInst cn attrs) name = Return v.
Proof. intros Hc Hs Ha. unfold load, resolve. now rewrite Hc, Hs, Ha. Qed.

Lemma invoke_method ct depth special cn attrs c name f args :
  find_class ct cn = Some c ->
  type_lookup c name = Some (TFn f) ->
  assoc name attrs = None ->
  invoke ct (S depth) special (VInst cn attrs) name args =
    f (interp_at ct depth) (VInst cn attrs) args.
Proof.
  intros Hc Hf Ha. destruct special; cbn [invoke];
    unfold resolve, resolve_special; now rewrite Hc, Hf, ?Ha.
Qed.

Lemma invoke_special_method ct depth cn attrs c name f args :
  find_class ct cn = Some c ->
  type_lookup c name = Some (TFn f) ->
  invoke ct (S depth) true (VInst cn attrs) name args =
    f (interp_at ct depth) (VInst cn attrs) args.
Proof.
  intros Hc Hf. cbn [invoke]. unfold resolve_special. now rewrite Hc, Hf.
Qed.


(** ** RefSpec *)

Section RefSpecInstances.

(** Any class table in which the name [RefSpec] denotes the class of the
    module. *)
Variable ct : list pyclass.
Hypothesis RefSpec_known : find_class ct "RefSpec" = Some RefSpec.

Ltac refspec_slot :=
  first [ erewrite store_slot; [| exact RefSpec_known | reflexivity]
        | erewrite load_slot;
          [| exact RefSpec_known | reflexivity | reflexivity] ].

Ltac refspec_special :=
  erewrite invoke_special_method; [| exact RefSpec_known | reflexivity].

Lemma RefSpec_construct depth source destination force :
  instantiate ct (S depth) "RefSpec" [source; destination; force] =
    if is_None destination
    then Raise (Exn ValueError "Destination must be set")
    else Return (refspec source destination force).
Proof.
  unfold instantiate, call_special. rewrite RefSpec_known. refspec_special.
  unfold def3_opt, RefSpec___init__, bind, set_self, get_self, interp_at;
    cbn [i_store i_load].
  do 3 refspec_slot.
  cbn [update String.eqb Ascii.eqb Bool.eqb].
  refspec_slot.
  destruct destination; reflexivity.
Qed.

Lemma RefSpec_default_force depth source destination :
  instantiate ct (S depth) "RefSpec" [source; destination] =
  instantiate ct (S depth) "RefSpec" [source; destination; VBool false].
Proof.
  unfold instantiate, call_special. rewrite RefSpec_known.
  do 2 refspec_special. reflexivity.
Qed.

Lemma RefSpec_constructed depth source destination force r :
  instantiate ct (S depth) "RefSpec" [source; destination; force] = Return r ->
  destination <> VNone /\ r = refspec source destination force.
Proof.
  rewrite RefSpec_construct.
  destruct destination; cbn; intros E; inversion E; split; congruence.
Qed.

(** C3.  Constructing a [RefSpec] whose destination is [None] raises
    [ValueError], whatever the source and the force flag are, also when
    the flag is left to its default; with any other destination the
    construction succeeds and yields the instance holding the three
    values. *)
Theorem RefSpec_init_requires_destination depth source force :
  instantiate ct (S depth) "RefSpec" [source; VNone; force]
    = Raise (Exn ValueError "Destination must be set")
  /\ instantiate ct (S depth) "RefSpec" [source; VNone]
    = Raise (Exn ValueError "Destination must be set")
  /\ forall destination, destination <> VNone ->
       instantiate ct (S depth) "RefSpec" [source; destination; force]
         = Return (refspec source destination force)
       /\ instantiate ct (S depth) "RefSpec" [source; destination]
         = Return (refspec source destination (VBool false)).
Proof.
  rewrite RefSpec_default_force, !RefSpec_construct.
  split; [reflexivity | split; [reflexivity |]].
  intros destination Hd.
  rewrite RefSpec_default_force, !RefSpec_construct.
  destruct destination; try congruence; split; reflexivity.
Qed.

(** C4.  On a successfully constructed [RefSpec], [delete_destination()]
    returns [True] when the source is [None] and [False] otherwise, and
    leaves the instance unchanged. *)
Theorem delete_destination_iff_source_absent
  depth depth' source destination force r :
  instantiate ct (S depth) "RefSpec" [source; destination; force] = Return r ->
  exists b,
    call_method ct (S depth') r "delete_destination" [] = (Return (VBool b), r)
    /\ (b = true <-> source = VNone).
Proof.
  intros E. destruct (RefSpec_constructed _ _ _ _ _ E) as [_ ->].
  exists (is_None source). split.
  - unfold call_method, refspec.
    erewrite invoke_method; [| exact RefSpec_known | reflexivity | reflexivity].
    unfold def0, RefSpec_delete_destination, bind, get_self, interp_at;
      cbn [i_load].
    refspec_slot. reflexivity.
  - destruct source; cbn; split; congruence.
Qed.

Lemma RefSpec___str___outcome I self :
  fst (def0 RefSpec___str__ I self []) = Return VNone
  \/ exists e, fst (def0 RefSpec___str__ I self []) = Raise e.
Proof.
  unfold def0, RefSpec___str__, bind.
  destruct (RefSpec_res I self) as [[res | e] self'];
    [left; reflexivity | right; exists e; reflexivity].
Qed.

Lemma py_str_RefSpec_never_returns depth attrs s :
  py_str ct depth (VInst "RefSpec" attrs) <> Return s.
Proof.
  unfold py_str, builtin_str, call_special.
  destruct depth as [| d].
  - cbn [invoke]. unfold resolve_special. rewrite RefSpec_known. cbn.
    discriminate.
  - refspec_special.
    destruct (RefSpec___str___outcome (interp_at ct d) (VInst "RefSpec" attrs))
      as [-> | [e ->]]; discriminate.
Qed.

(** C8.  On a constructed [RefSpec] whose source is a reference name or
    [None], whose destination is a reference name and whose force flag is
    a bool, [__str__] composes the git-style text
    [[+]source:destination] in its local [res] and then ends without
    returning it: the call returns [None] and leaves the instance as it
    was, so that the builtin [str(refspec)] raises [TypeError] and at no
    depth returns a string. *)
Theorem RefSpec_str_drops_its_result
  depth depth' (source : option string) (destination : string) (force : bool) r :
  instantiate ct (S depth) "RefSpec"
    [source_value source; VStr destination; VBool force] = Return r ->
  RefSpec_res (interp_at ct depth') r
    = (Return ((if force then "+" else "")
               ++ match source with Some s => s | None => "" end
               ++ ":" ++ destination), r)
  /\ call_special ct (S depth') r "__str__" [] = (Return VNone, r)
  /\ raises (py_str ct (S depth') r) TypeError
  /\ forall n t, py_str ct n r <> Return t.
Proof.
  intros E. destruct (RefSpec_constructed _ _ _ _ _ E) as [_ ->].
  set (r := refspec (source_value source) (VStr destination) (VBool force)).
  assert (R : RefSpec_res (interp_at ct depth') r
    = (Return ((if force then "+" else "")
               ++ match source with Some s => s | None => "" end
               ++ ":" ++ destination), r)).
  { unfold RefSpec_res, bind, get_self, lift, ret, interp_at, r, refspec;
      cbn [i_load i_str i_truth].
    repeat refspec_slot.
    destruct source as [s |]; cbn; repeat refspec_slot; reflexivity. }
  assert (C : call_special ct (S depth') r "__str__" [] = (Return VNone, r)).
  { unfold call_special, r, refspec. refspec_special.
    unfold def0, RefSpec___str__, bind.
    fold (refspec (source_value source) (VStr destination) (VBool force)).
    fold r. now rewrite R. }
  split; [exact R | split; [exact C | split]].
  - unfold py_str, builtin_str, r, refspec.
    unfold r, refspec in C. rewrite C. eexists. reflexivity.
  - intros n t. apply py_str_RefSpec_never_returns.
Qed.

End RefSpecInstances.

Lemma RefSpec_init_requires_destination_witness :
  find_class interface "RefSpec" = Some RefSpec
  /\ instantiate interface 1 "RefSpec" [VStr "refs/heads/master"; VNone; VBool true]
       = Raise (Exn ValueError "Destination must be set")
  /\ instantiate interface 1 "RefSpec"
       [VStr "refs/heads/master"; VStr "refs/remotes/origin/master"; VBool true]
       = Return (refspec (VStr "refs/heads/master")
                         (VStr "refs/remotes/origin/master") (VBool true)).
Proof.
  split; [reflexivity |].
  destruct (RefSpec_init_requires_destination interface eq_refl 0
              (VStr "refs/heads/master") (VBool true)) as (E & _ & K).
  split; [exact E |].
  apply (K (VStr "refs/remotes/origin/master")). discriminate.
Defined.

Lemma delete_destination_iff_source_absent_witness :
  find_class interface "RefSpec" = Some RefSpec
  /\ instantiate interface 1 "RefSpec" [VNone; VStr "refs/heads/old"; VBool false]
     = Return (refspec VNone (VStr "refs/heads/old") (VBool false))
  /\ exists b,
       call_method interface 1
         (refspec VNone (VStr "refs/heads/old") (VBool false))
         "delete_destination" []
       = (Return (VBool b), refspec VNone (VStr "refs/heads/old") (VBool false))
       /\ (b = true <-> VNone = VNone).
Proof.
  split; [reflexivity | split; [reflexivity |]].
  apply (delete_destination_iff_source_absent interface eq_refl 0 0
           VNone (VStr "refs/heads/old") (VBool false)
           (refspec VNone (VStr "refs/heads/old") (VBool false))
           eq_refl).
Defined.

Lemma RefSpec_str_drops_its_result_witness :
  find_class interface "RefSpec" = Some RefSpec
  /\ instantiate interface 1 "RefSpec"
       [source_value (Some "master"); VStr "refs/heads/master"; VBool true]
     = Return sample_refspec
  /\ RefSpec_res (interp_at interface 0) sample_refspec
     = (Return "+master:refs/heads/master", sample_refspec)
  /\ call_special interface 1 sample_refspec "__str__" []
     = (Return VNone, sample_refspec)
  /\ raises (py_str interface 1 sample_refspec) TypeError.
Proof.
  destruct (RefSpec_str_drops_its_result interface eq_refl 0 0
              (Some "master") "refs/heads/master" true sample_refspec eq_refl)
    as (R & C & T & _).
  split; [reflexivity | split; [reflexivity |]].
  split; [exact R | split; [exact C | exact T]].
Defined.

(** ** The read interface *)

(** Wherever [__contains__] is the one of [ObjectDBR] and no [has_obj]
    can be read off the object, membership raises [AttributeError]. *)
Lemma contains_needs_has_obj ct depth cn c attrs sha :
  find_class ct cn = Some c ->
  type_lookup c "__contains__" = Some (TFn (def1 ObjectDBR___contains__)) ->
  type_lookup c "has_obj" = None ->
  assoc "has_obj" attrs = None ->
  py_in ct (S depth) sha (VInst cn attrs) = Raise (no_attribute cn "has_obj").
Proof.
  intros Hc Hf Hn Ha. unfold py_in, call_special.
  erewrite invoke_special_method; [| exact Hc | exact Hf].
  unfold resolve_special. rewrite Hc, Hf.
  unfold def1, ObjectDBR___contains__, call_self, interp_at; cbn [i_call].
  destruct depth; cbn [invoke]; unfold resolve; now rewrite Hc, Hn, Ha.
Qed.

(** C1, at the failing input.  For the database [EmptyDB], which
    implements [has_object] as the interface asks, [has_object(sha)]
    returns [False] for every digest, while [sha in db] raises
    [AttributeError]: [__contains__] calls [has_obj], a name that the
    interface does not have. *)
Theorem EmptyDB_membership_raises depth sha :
  call_method sample_classes (S depth) (VInst "EmptyDB" []) "has_object" [sha]
    = (Return (VBool false), VInst "EmptyDB" [])
  /\ py_in sample_classes (S depth) sha (VInst "EmptyDB" [])
    = Raise (no_attribute "EmptyDB" "has_obj")
  /\ type_lookup ObjectDBR "has_obj" = None.
Proof.
  split; [| split; [| reflexivity]].
  - unfold call_method.
    erewrite invoke_method; [| reflexivity ..]. reflexivity.
  - eapply contains_needs_has_obj; reflexivity.
Qed.

(** C9.  On a direct instance of [ObjectDBR], [partial_to_complete_sha]
    returns [None] for every pair of arguments and raises nothing, while
    each other operation of the query interface, called with the
    arguments it takes, raises [NotImplementedError]. *)
Theorem partial_to_complete_sha_returns_None ct depth a b :
  find_class ct "ObjectDBR" = Some ObjectDBR ->
  instantiate ct (S depth) "ObjectDBR" [] = Return (VInst "ObjectDBR" [])
  /\ call_method ct (S depth) (VInst "ObjectDBR" [])
       "partial_to_complete_sha" [a; b]
     = (Return VNone, VInst "ObjectDBR" [])
  /\ forall name n args,
       In (name, n) ObjectDBR_other_queries -> length args = n ->
       exists msg,
         call_method ct (S depth) (VInst "ObjectDBR" []) name args
         = (Raise (Exn NotImplementedError msg), VInst "ObjectDBR" []).
Proof.
  intros H. split; [| split].
  - unfold instantiate, call_special. rewrite H.
    erewrite invoke_special_method; [| exact H | reflexivity]. reflexivity.
  - unfold call_method.
    erewrite invoke_method; [| exact H | reflexivity | reflexivity].
    reflexivity.
  - intros name n args Hin Hlen. unfold call_method.
    cbn in Hin.
    repeat (destruct Hin as [Hin | Hin];
            [ injection Hin as <- <-;
              erewrite invoke_method; [| exact H | reflexivity | reflexivity];
              destruct args as [| x [| y args]]; try discriminate Hlen;
              eexists; reflexivity | ]).
    contradiction.
Qed.

Lemma partial_to_complete_sha_returns_None_witness :
  find_class interface "ObjectDBR" = Some ObjectDBR
  /\ call_method interface 1 (VInst "ObjectDBR" [])
       "partial_to_complete_sha" [VStr "ab"; VInt 3]
     = (Return VNone, VInst "ObjectDBR" [])
  /\ exists msg,
       call_method interface 1 (VInst "ObjectDBR" [])
         "partial_to_complete_sha_hex" [VStr "abc"]
       = (Raise (Exn NotImplementedError msg), VInst "ObjectDBR" []).
Proof.
  split; [reflexivity |].
  destruct (partial_to_complete_sha_returns_None interface 0
              (VStr "ab") (VInt 3) eq_refl) as (_ & E & K).
  split; [exact E |].
  apply (K "partial_to_complete_sha_hex" 1%nat [VStr "abc"]).
  - cbn. tauto.
  - reflexivity.
Defined.

(** ** The caching interface *)

(** C5 as amended.  On a direct instance of [CachingDB], [update_cache]
    returns [None], a false value that is not a boolean, whether [force]
    is passed or left to its default; it leaves the instance as it was and
    never returns [True]. *)
Theorem update_cache_returns_None ct depth force :
  find_class ct "CachingDB" = Some CachingDB ->
  call_method ct (S depth) (VInst "CachingDB" []) "update_cache" [force]
    = (Return VNone, VInst "CachingDB" [])
  /\ call_method ct (S depth) (VInst "CachingDB" []) "update_cache" []
    = (Return VNone, VInst "CachingDB" [])
  /\ truthy VNone = false.
Proof.
  intros H. unfold call_method.
  do 2 (erewrite invoke_method; [| exact H | reflexivity | reflexivity]).
  repeat split.
Qed.

Lemma update_cache_returns_None_witness :
  find_class interface "CachingDB" = Some CachingDB
  /\ call_method interface 1 (VInst "CachingDB" []) "update_cache" [VBool true]
     = (Return VNone, VInst "CachingDB" []).
Proof.
  split; [reflexivity |].
  apply (update_cache_returns_None interface 0 (VBool true) eq_refl).
Defined.

(** C5, as stated, fails: a forced [update_cache] on a [CachingDB]
    returns no boolean. *)
Lemma update_cache_counterexample :
  ~ exists b : bool,
      fst (call_method interface 1 (VInst "CachingDB" []) "update_cache"
             [VBool true]) = Return (VBool b).
Proof. intros [b E]. discriminate E. Qed.

(** ** The result records *)

(** C10.  [PushInfo] and [FetchInfo] declare empty [__slots__], so their
    direct instances have no [__dict__] and no slot: a fresh instance
    holds no attribute, reading any announced member off it raises
    [AttributeError], and so does assigning one, whatever the value.  In
    a subclass that lists the member in its [__slots__], or that declares
    no [__slots__] at all, the assignment succeeds. *)
Theorem info_records_admit_no_attributes
  ct depth c members name v :
  In (c, members) info_classes ->
  find_class ct (class_name c) = Some c ->
  In name members ->
  has_dict c = false
  /\ instantiate ct (S depth) (class_name c) [] = Return (VInst (class_name c) [])
  /\ raises (load ct (VInst (class_name c) []) name) AttributeError
  /\ (forall attrs,
        raises (store ct (VInst (class_name c) attrs) name v) AttributeError)
  /\ forall sub slots body attrs,
       find_class ct sub = Some (PyClass sub c slots body) ->
       assoc name body = None ->
       (slots = None \/ exists sl, slots = Some sl /\ mem name sl = true) ->
       store ct (VInst sub attrs) name v = Return (VInst sub (update name v attrs)).
Proof.
  intros Hc Hf Hn.
  assert (L : type_lookup c name = None).
  { cbn in Hc. destruct Hc as [Hc | [Hc | []]]; injection Hc as <- <-;
      cbn in Hn; intuition (subst name; reflexivity). }
  assert (D : has_dict c = false).
  { cbn in Hc. destruct Hc as [Hc | [Hc | []]]; injection Hc as <- <-;
      reflexivity. }
  split; [exact D | split; [| split; [| split]]].
  - unfold instantiate, call_special. rewrite Hf.
    erewrite invoke_special_method with (f := object___init__);
      [reflexivity | exact Hf |].
    cbn in Hc. destruct Hc as [Hc | [Hc | []]]; injection Hc as <- <-;
      reflexivity.
  - unfold load, resolve. rewrite Hf, L. cbn. eexists. reflexivity.
  - intros attrs. unfold store. rewrite Hf, L, D. eexists. reflexivity.
  - intros sub slots body attrs Hs Hb Hsl. unfold store. rewrite Hs.
    cbn [type_lookup]. rewrite Hb.
    destruct Hsl as [-> | (sl & -> & Hm)].
    + now rewrite L.
    + now rewrite Hm.
Qed.

Lemma info_records_admit_no_attributes_witness :
  In (PushInfo, PushInfo_members) info_classes
  /\ find_class sample_classes "PushInfo" = Some PushInfo
  /\ In "flags" PushInfo_members
  /\ raises (store sample_classes (VInst "PushInfo" []) "flags" (VInt 3))
            AttributeError
  /\ store sample_classes (VInst "PushResult" []) "flags" (VInt 3)
     = Return (VInst "PushResult" [("flags", VInt 3)]).
Proof.
  assert (Hc : In (PushInfo, PushInfo_members) info_classes) by (left; reflexivity).
  assert (Hn : In "flags" PushInfo_members) by (left; reflexivity).
  destruct (info_records_admit_no_attributes sample_classes 0
              PushInfo PushInfo_members "flags" (VInt 3) Hc eq_refl Hn)
    as (_ & _ & _ & S & K).
  split; [exact Hc | split; [reflexivity | split; [exact Hn | split]]].
  - exact (S []).
  - apply (K "PushResult" (Some PushInfo_members) [] []).
    + reflexivity.
    + reflexivity.
    + right. exists PushInfo_members. split; reflexivity.
Defined.

Ltac index_below_11 :=
  first [ exists 0%nat; split; [reflexivity | split; [reflexivity | lia]]
        | exists 1%nat; split; [reflexivity | split; [reflexivity | lia]]
        | exists 2%nat; split; [reflexivity | split; [reflexivity | lia]]
        | exists 3%nat; split; [reflexivity | split; [reflexivity | lia]]
        | exists 4%nat; split; [reflexivity | split; [reflexivity | lia]]
        | exists 5%nat; split; [reflexivity | split; [reflexivity | lia]]
        | exists 6%nat; split; [reflexivity | split; [reflexivity | lia]]
        | exists 7%nat; split; [reflexivity | split; [reflexivity | lia]]
        | exists 8%nat; split; [reflexivity | split; [reflexivity | lia]]
        | exists 9%nat; split; [reflexivity | split; [reflexivity | lia]]
        | exists 10%nat; split; [reflexivity | split; [reflexivity | lia]] ].

Ltac flag_cases a :=
  repeat match goal with
         | |- context [String.eqb a ?s] =>
             destruct (String.eqb_spec a s) as [-> | ?];
             [ intros E; injection E as <-; index_below_11 | ]
         end.

Lemma PushInfo_flag_inv a x :
  class_int PushInfo a = Some x ->
  exists i, nth_error PushInfo_flag_names i = Some a
            /\ x = (2 ^ Z.of_nat i)%Z /\ (i < 11)%nat.
Proof.
  unfold class_int. cbn -[String.eqb]. flag_cases a.
  repeat match goal with
         | |- context [String.eqb a ?s] => destruct (String.eqb a s)
         end; discriminate.
Qed.

Lemma FetchInfo_flag_inv a x :
  class_int FetchInfo a = Some x ->
  exists i, nth_error FetchInfo_flag_names i = Some a
            /\ x = (2 ^ Z.of_nat i)%Z /\ (i < 11)%nat.
Proof.
  unfold class_int. cbn -[String.eqb]. flag_cases a.
  repeat match goal with
         | |- context [String.eqb a ?s] => destruct (String.eqb a s)
         end; discriminate.
Qed.

Lemma distinct_powers_of_two i j :
  (i < 11)%nat -> (j < 11)%nat -> i <> j ->
  (2 ^ Z.of_nat i <> 2 ^ Z.of_nat j)%Z
  /\ Z.land (2 ^ Z.of_nat i) (2 ^ Z.of_nat j) = 0%Z.
Proof.
  intros Hi Hj Hne.
  do 11 (destruct i as [| i];
         [ do 11 (destruct j as [| j];
                  [ first [ congruence | split; [discriminate | reflexivity] ] | ]);
           lia | ]).
  lia.
Qed.

(** C7.  The eleven flags of [PushInfo] and the eight flags of
    [FetchInfo] are the powers of two [2^0], [2^1], ... in the order of
    their names; two flags of one class with different names are
    different numbers and have no bit in common, so their bitwise AND is
    zero. *)
Theorem flags_are_distinct_powers_of_two :
  (length PushInfo_flag_names = 11%nat /\ length FetchInfo_flag_names = 8%nat)
  /\ (forall i name, nth_error PushInfo_flag_names i = Some name ->
        class_int PushInfo name = Some (2 ^ Z.of_nat i)%Z)
  /\ (forall i name, nth_error FetchInfo_flag_names i = Some name ->
        class_int FetchInfo name = Some (2 ^ Z.of_nat i)%Z)
  /\ (forall c names a b x y,
        In (c, names) flag_classes -> In a names -> In b names -> a <> b ->
        class_int c a = Some x -> class_int c b = Some y ->
        x <> y /\ Z.land x y = 0%Z).
Proof.
  split; [split; reflexivity | split; [| split]].
  - intros i name H.
    do 11 (destruct i as [| i]; [injection H as <-; reflexivity |]).
    destruct i; discriminate H.
  - intros i name H.
    do 8 (destruct i as [| i]; [injection H as <-; reflexivity |]).
    destruct i; discriminate H.
  - intros c names a b x y Hc _ _ Hne Ha Hb.
    cbn in Hc. destruct Hc as [Hc | [Hc | []]]; injection Hc as <- <-.
    + apply PushInfo_flag_inv in Ha, Hb.
      destruct Ha as (i & Hi & -> & Li), Hb as (j & Hj & -> & Lj).
      apply distinct_powers_of_two; try assumption. congruence.
    + apply FetchInfo_flag_inv in Ha, Hb.
      destruct Ha as (i & Hi & -> & Li), Hb as (j & Hj & -> & Lj).
      apply distinct_powers_of_two; try assumption. congruence.
Qed.

Lemma flags_are_distinct_powers_of_two_witness :
  class_int PushInfo "ERROR" = Some 1024%Z
  /\ class_int FetchInfo "ERROR" = Some 128%Z
  /\ Z.land 8 128 = 0%Z.
Proof.
  destruct flags_are_distinct_powers_of_two as (_ & P & F & D).
  split; [exact (P 10%nat "ERROR" eq_refl) | split].
  - exact (F 7%nat "ERROR" eq_refl).
  - apply (D PushInfo PushInfo_flag_names "REJECTED" "FORCED_UPDATE" 8%Z 128%Z).
    + left; reflexivity.
    + cbn. tauto.
    + cbn. tauto.
    + discriminate.
    + reflexivity.
    + reflexivity.
Defined.

(** ** Partial digests *)

Lemma match_set_spec keys p d :
  In d (match_set keys p) <-> matching keys p d.
Proof. unfold match_set, matching. now rewrite nodup_In, filter_In. Qed.

Lemma match_set_NoDup keys p : NoDup (match_set keys p).
Proof. apply NoDup_nodup. Qed.

Lemma NoDup_singleton {A} (l : list A) (d : A) :
  NoDup l -> In d l -> (forall x, In x l -> x = d) -> l = [d].
Proof.
  intros N Hd Hall. destruct l as [| a l]; [contradiction |].
  assert (a = d) by (apply Hall; now left). subst a.
  destruct l as [| b l]; [reflexivity |].
  assert (b = d) by (apply Hall; right; now left). subst b.
  inversion N as [| ? ? Hnot _]. exfalso. apply Hnot. now left.
Qed.

Lemma NoDup_two {A} (l : list A) (d1 d2 : A) :
  In d1 l -> In d2 l -> d1 <> d2 -> 2 <= length l.
Proof.
  intros H1 H2 Hne. destruct l as [| a [| b l]]; cbn in *.
  - contradiction.
  - destruct H1 as [-> | []], H2 as [-> | []]. congruence.
  - lia.
Qed.

Lemma resolve_partial_unfold keys partial_hex hex_length :
  resolve_partial keys partial_hex hex_length =
    match match_set keys (substring 0 hex_length partial_hex) with
    | [] => inl BadObject
    | [d] => inr d
    | ms => inl (AmbiguousObjectName ms)
    end.
Proof. reflexivity. Qed.

Lemma substring_all s : substring 0 (String.length s) s = s.
Proof. induction s as [| c s IH]; cbn; [reflexivity | now rewrite IH]. Qed.

(** C2.  Let [p] be the prefix that a resolution is asked for.  When
    exactly one digest of the key space carries [p], the resolution
    returns that digest; when none does it fails with [BadObject]; when
    two different digests do it fails with [AmbiguousObjectName], which
    reports the set of all matches, at least two.  A digest is returned
    only when it is the one match, so an ambiguity is never settled in
    favour of some match.  The hexadecimal entry point resolves the
    prefix it is given, the binary one the first [canonical_length]
    characters of the hexadecimal form of its argument. *)
Theorem resolve_partial_contract keys partial_hex hex_length :
  let p := substring 0 hex_length partial_hex in
  let r := resolve_partial keys partial_hex hex_length in
  (forall d, matching keys p d ->
     (forall d', matching keys p d' -> d' = d) -> r = inr d)
  /\ ((forall d, ~ matching keys p d) -> r = inl BadObject)
  /\ (forall d1 d2, matching keys p d1 -> matching keys p d2 -> d1 <> d2 ->
        exists ms, r = inl (AmbiguousObjectName ms)
                   /\ (forall d, In d ms <-> matching keys p d)
                   /\ 2 <= length ms)
  /\ (forall d, r = inr d ->
        matching keys p d /\ forall d', matching keys p d' -> d' = d)
  /\ resolve_partial_hex keys partial_hex
     = resolve_partial keys partial_hex (String.length partial_hex)
  /\ substring 0 (String.length partial_hex) partial_hex = partial_hex
  /\ forall partial_binsha,
       resolve_partial_bin keys partial_binsha hex_length
       = resolve_partial keys (bin_to_hex partial_binsha) hex_length.
Proof.
  intros p r. subst r. rewrite resolve_partial_unfold. fold p.
  pose proof (match_set_spec keys p) as S.
  pose proof (match_set_NoDup keys p) as N.
  split; [| split; [| split; [| split; [| split; [| split]]]]].
  - intros d Hd Hu.
    rewrite (NoDup_singleton (match_set keys p) d N); [reflexivity | |].
    + now apply S.
    + intros x Hx. apply Hu. now apply S.
  - intros Hnone. destruct (match_set keys p) as [| a l]; [reflexivity |].
    exfalso. apply (Hnone a). apply S. now left.
  - intros d1 d2 H1 H2 Hne.
    assert (L : 2 <= length (match_set keys p)).
    { apply (NoDup_two _ d1 d2); [now apply S | now apply S | exact Hne]. }
    exists (match_set keys p). split; [| split; [exact S | exact L]].
    destruct (match_set keys p) as [| a [| b l]]; cbn in L; try lia.
    reflexivity.
  - intros d E. destruct (match_set keys p) as [| a [| b l]] eqn:M;
      try discriminate E.
    injection E as <-. split.
    + apply S. now left.
    + intros d' Hd'. apply S in Hd'. destruct Hd' as [<- | []]. reflexivity.
  - reflexivity.
  - apply substring_all.
  - reflexivity.
Qed.

Lemma resolve_partial_contract_witness :
  matching sample_keys "1" (sha_of Byte.x1f)
  /\ resolve_partial sample_keys "1f00" 1 = inr (sha_of Byte.x1f)
  /\ resolve_partial sample_keys "7" 1 = inl BadObject
  /\ exists ms, resolve_partial sample_keys "ab" 1 = inl (AmbiguousObjectName ms)
                /\ (forall d, In d ms <-> matching sample_keys "a" d)
                /\ 2 <= length ms.
Proof.
  assert (M1 : matching sample_keys "1" (sha_of Byte.x1f)).
  { split; [right; right; left; reflexivity | reflexivity]. }
  assert (U : forall d', matching sample_keys "1" d' -> d' = sha_of Byte.x1f).
  { intros d' [Hin Hp]. cbn in Hin.
    destruct Hin as [<- | [<- | [<- | [<- | []]]]];
      first [reflexivity | discriminate Hp]. }
  assert (Z : forall d, ~ matching sample_keys "7" d).
  { intros d [Hin Hp]. cbn in Hin.
    destruct Hin as [<- | [<- | [<- | [<- | []]]]]; discriminate Hp. }
  assert (A1 : matching sample_keys "a" (sha_of Byte.xab)).
  { split; [left; reflexivity | reflexivity]. }
  assert (A2 : matching sample_keys "a" (sha_of Byte.xac)).
  { split; [right; left; reflexivity | reflexivity]. }
  split; [exact M1 | split; [| split]].
  - exact (proj1 (resolve_partial_contract sample_keys "1f00" 1)
             (sha_of Byte.x1f) M1 U).
  - exact (proj1 (proj2 (resolve_partial_contract sample_keys "7" 1)) Z).
  - apply (proj1 (proj2 (proj2 (resolve_partial_contract sample_keys "ab" 1)))
             (sha_of Byte.xab) (sha_of Byte.xac) A1 A2).
    discriminate.
Defined.

(** ** The output sink *)

(** C6.  Installing a sink that lacks the write capability fails with
    [CapabilityError] and leaves the installed sink as it was; a capable
    sink is installed and the sink installed before, or the sentinel for
    the backend's default, is returned; so is it when the default itself
    is installed. *)
Theorem set_output_sink_checks_capability capable sink installed :
  sink <> VNone ->
  (capable sink = false ->
     set_output_sink capable sink installed = (inl CapabilityError, installed))
  /\ (capable sink = true ->
     set_output_sink capable sink installed = (inr installed, sink))
  /\ set_output_sink capable VNone installed = (inr installed, VNone).
Proof.
  intros Hs. unfold set_output_sink.
  assert (N : is_None sink = false)     by (destruct sink; [exfalso; now apply Hs | reflexivity ..]).
  rewrite N. split; [| split].
  - now intros ->.
  - now intros ->.
  - reflexivity.
Qed.

Lemma set_output_sink_checks_capability_witness :
  VInt 7 <> VNone
  /\ has_write sample_classes (VInt 7) = false
  /\ set_output_sink (has_write sample_classes) (VInt 7) VNone
     = (inl CapabilityError, VNone)
  /\ VInst "Stream" [] <> VNone
  /\ has_write sample_classes (VInst "Stream" []) = true
  /\ set_output_sink (has_write sample_classes) (VInst "Stream" []) VNone
     = (inr VNone, VInst "Stream" []).
Proof.
  assert (H1 : VInt 7 <> VNone) by discriminate.
  assert (H2 : VInst "Stream" [] <> VNone) by discriminate.
  split; [exact H1 | split; [reflexivity | split; [| split; [exact H2 | split]]]].
  - apply (set_output_sink_checks_capability
             (has_write sample_classes) (VInt 7) VNone H1). reflexivity.
  - reflexivity.
  - apply (set_output_sink_checks_capability
             (has_write sample_classes) (VInst "Stream" []) VNone H2).
    reflexivity.
Defined.

(* ================================================================= *)
(** * Further properties of the module *)

(** ** Attribute stores *)

Lemma assoc_update_same {A} k (a : A) l : assoc k (update k a l) = Some a.
Proof.
  induction l as [| [k' a'] l IH]; cbn.
  - now rewrite String.eqb_refl.
  - destruct (String.eqb_spec k k') as [-> | Hne]; cbn.
    + now rewrite String.eqb_refl.
    + apply String.eqb_neq in Hne. now rewrite Hne.
Qed.

Lemma assoc_update_other {A} k k' (a : A) l :
  k' <> k -> assoc k' (update k a l) = assoc k' l.
Proof.
  intros Hne. induction l as [| [k0 a0] l IH]; cbn.
  - apply String.eqb_neq in Hne. now rewrite Hne.
  - destruct (String.eqb_spec k k0) as [-> | Hk]; cbn.
    + apply String.eqb_neq in Hne. now rewrite Hne.
    + now rewrite IH.
Qed.

Lemma inherits_lookup c base name :
  inherits c base name -> type_lookup c name = type_lookup base name.
Proof.
  induction c as [| n b IH sl body]; intros H; cbn in H.
  - destruct H as [<- | []]. reflexivity.
  - destruct H as [<- | (Hb & Hs & Hi)]; [reflexivity |].
    cbn [type_lookup]. rewrite Hb.
    destruct sl as [sl |]; [rewrite Hs |]; now apply IH.
Qed.

Section RefSpecState.

Variable ct : list pyclass.
Hypothesis RefSpec_known : find_class ct "RefSpec" = Some RefSpec.

Lemma RefSpec_slot_lookup name :
  In name RefSpec_slots -> type_lookup RefSpec name = Some TSlot.
Proof.
  cbn. intros [<- | [<- | [<- | []]]]; reflexivity.
Qed.

(** X1.  Every attribute that [__init__] stores can be read back: on a
    constructed [RefSpec] the attributes [source], [destination] and
    [force] are the arguments of the construction, and [force] is
    [False] when the construction left it out. *)
Theorem RefSpec_attributes_are_the_arguments depth source destination force r :
  instantiate ct (S depth) "RefSpec" [source; destination; force] = Return r ->
  load ct r "source" = Return source
  /\ load ct r "destination" = Return destination
  /\ load ct r "force" = Return force
  /\ forall r', instantiate ct (S depth) "RefSpec" [source; destination]
                = Return r' ->
                load ct r' "source" = Return source
                /\ load ct r' "destination" = Return destination
                /\ load ct r' "force" = Return (VBool false).
Proof.
  intros E. destruct (RefSpec_constructed ct RefSpec_known _ _ _ _ _ E) as [_ ->].
  assert (L : forall s d f,
             load ct (refspec s d f) "source" = Return s
             /\ load ct (refspec s d f) "destination" = Return d
             /\ load ct (refspec s d f) "force" = Return f).
  { intros s d f. unfold refspec. repeat split;
      (erewrite load_slot;
       [reflexivity | exact RefSpec_known | reflexivity | reflexivity]). }
  destruct (L source destination force) as (A & B & C).
  split; [exact A | split; [exact B | split; [exact C |]]].
  intros r' E'. rewrite (RefSpec_default_force ct RefSpec_known) in E'.
  destruct (RefSpec_constructed ct RefSpec_known _ _ _ _ _ E') as [_ ->].
  apply L.
Qed.

(** X2.  A slot of a [RefSpec] takes any value without validation, [None]
    as a destination included: the assignment succeeds in every state of
    the instance, the slot then reads as the value assigned, and the two
    other slots read as they did before. *)
Theorem RefSpec_assignment_round_trip attrs name v :
  In name RefSpec_slots ->
  exists r',
    store ct (VInst "RefSpec" attrs) name v = Return r'
    /\ load ct r' name = Return v
    /\ forall other, In other RefSpec_slots -> other <> name ->
         load ct r' other = load ct (VInst "RefSpec" attrs) other.
Proof.
  intros Hn. exists (VInst "RefSpec" (update name v attrs)).
  pose proof (RefSpec_slot_lookup name Hn) as Hs.
  split; [| split].
  - now apply (store_slot ct "RefSpec" RefSpec).
  - apply (load_slot ct "RefSpec" RefSpec); try assumption.
    apply assoc_update_same.
  - intros other Ho Hne. unfold load, resolve.
    rewrite RefSpec_known, (RefSpec_slot_lookup other Ho),
      (assoc_update_other _ _ _ _ Hne).
    now destruct (assoc other attrs).
Qed.

(** X3.  The attributes of a [RefSpec] are the three slots and nothing
    else: assigning any other name that does not start with two
    underscores, the name of a method included, raises
    [AttributeError]. *)
Theorem RefSpec_admits_no_other_attribute attrs name v :
  mem name RefSpec_slots = false ->
  prefix "__" name = false ->
  raises (store ct (VInst "RefSpec" attrs) name v) AttributeError.
Proof.
  intros Hm Hp. unfold store. rewrite RefSpec_known.
  cbn [type_lookup RefSpec assoc].
  destruct (String.eqb_spec name "__init__") as [-> | _]; [discriminate Hp |].
  destruct (String.eqb_spec name "__str__") as [-> | _]; [discriminate Hp |].
  destruct (name =? "delete_destination").
  - eexists. reflexivity.
  - unfold RefSpec_slots in Hm. rewrite Hm. cbn.
    destruct (String.eqb_spec name "__str__") as [-> | _]; [discriminate Hp |].
    destruct (String.eqb_spec name "__init__") as [-> | _]; [discriminate Hp |].
    eexists. reflexivity.
Qed.

(** X4.  [__init__] checks the destination after it has stored its
    arguments: called again on an instance with [None] as destination it
    raises [ValueError] and leaves the instance with the new source,
    [None] as destination and the new force flag. *)
Theorem RefSpec_init_stores_before_it_checks depth attrs source force :
  exists r',
    call_special ct (S depth) (VInst "RefSpec" attrs) "__init__"
      [source; VNone; force]
    = (Raise (Exn ValueError "Destination must be set"), r')
    /\ load ct r' "source" = Return source
    /\ load ct r' "destination" = Return VNone
    /\ load ct r' "force" = Return force.
Proof.
  set (attrs' := update "force" force
                   (update "destination" VNone (update "source" source attrs))).
  assert (As : assoc "source" attrs' = Some source).
  { unfold attrs'. rewrite !assoc_update_other by discriminate.
    apply assoc_update_same. }
  assert (Ad : assoc "destination" attrs' = Some VNone).
  { unfold attrs'. rewrite assoc_update_other by discriminate.
    apply assoc_update_same. }
  assert (Af : assoc "force" attrs' = Some force).
  { unfold attrs'. apply assoc_update_same. }
  exists (VInst "RefSpec" attrs'). split; [| split; [| split]].
  - unfold call_special.
    erewrite invoke_special_method; [| exact RefSpec_known | reflexivity].
    unfold def3_opt, RefSpec___init__, bind, set_self, get_self, interp_at;
      cbn [i_store i_load].
    do 3 (erewrite store_slot; [| exact RefSpec_known | reflexivity]).
    fold attrs'.
    now rewrite (load_slot ct "RefSpec" RefSpec "destination" VNone attrs'
                   RefSpec_known eq_refl Ad).
  - exact (load_slot ct "RefSpec" RefSpec "source" _ attrs'
             RefSpec_known eq_refl As).
  - exact (load_slot ct "RefSpec" RefSpec "destination" _ attrs'
             RefSpec_known eq_refl Ad).
  - exact (load_slot ct "RefSpec" RefSpec "force" _ attrs'
             RefSpec_known eq_refl Af).
Qed.

(** X5.  [delete_destination] answers for the source that the instance
    holds when it is called: after [r.source = v] on a constructed
    [RefSpec] it returns [True] when [v] is [None] and [False] otherwise,
    whatever the source of the construction was. *)
Theorem delete_destination_follows_assignment
  depth depth' source destination force r v r' :
  instantiate ct (S depth) "RefSpec" [source; destination; force] = Return r ->
  store ct r "source" v = Return r' ->
  call_method ct (S depth') r' "delete_destination" []
  = (Return (VBool (is_None v)), r').
Proof.
  intros E Hst.
  destruct (RefSpec_constructed ct RefSpec_known _ _ _ _ _ E) as [_ ->].
  unfold refspec in Hst.
  rewrite (store_slot ct "RefSpec" RefSpec "source" v _ RefSpec_known eq_refl)
    in Hst.
  injection Hst as <-. cbn [update String.eqb Ascii.eqb Bool.eqb].
  unfold call_method.
  erewrite invoke_method; [| exact RefSpec_known | reflexivity | reflexivity].
  unfold def0, RefSpec_delete_destination, bind, get_self, interp_at;
    cbn [i_load].
  erewrite load_slot;
    [reflexivity | exact RefSpec_known | reflexivity | reflexivity].
Qed.

Lemma RefSpec_init_arity depth args :
  length args <> 2 -> length args <> 3 ->
  instantiate ct (S depth) "RefSpec" args = Raise arity_error.
Proof.
  intros H2 H3. unfold instantiate, call_special. rewrite RefSpec_known.
  erewrite invoke_special_method; [| exact RefSpec_known | reflexivity].
  destruct args as [| a [| b [| c [| d args]]]]; cbn in H2, H3;
    try congruence; reflexivity.
Qed.

(** X6.  The outcome of [RefSpec(args)] is decided by the number of
    arguments and by the second one alone: an instance exactly when two or
    three arguments are given and the second is not [None], [ValueError]
    exactly when two or three are given and the second is [None], and
    [TypeError] exactly when their number is neither two nor three. *)
Theorem RefSpec_construction_outcomes depth args :
  (forall r,
     instantiate ct (S depth) "RefSpec" args = Return r <->
     exists s d f,
       (args = [s; d; f] \/ (args = [s; d] /\ f = VBool false))
       /\ d <> VNone /\ r = refspec s d f)
  /\ (raises (instantiate ct (S depth) "RefSpec" args) ValueError <->
      exists s rest, args = s :: VNone :: rest /\ length rest <= 1)
  /\ (raises (instantiate ct (S depth) "RefSpec" args) TypeError <->
      length args <> 2 /\ length args <> 3).
Proof.
  destruct args as [| a [| b [| c [| d args]]]].
  1, 2, 5:
    rewrite RefSpec_init_arity by (cbn; lia);
    (split; [| split]);
    [ intros r; split;
      [ discriminate
      | intros (s & d0 & f & [E | [E _]] & _); discriminate E ]
    | split;
      [ intros [msg E]; discriminate E
      | intros (s & rest & E & L);
        apply (f_equal (@length value)) in E; cbn in E; lia ]
    | split; [ intros _; cbn; lia | intros _; eexists; reflexivity ] ].
  - rewrite (RefSpec_default_force ct RefSpec_known),
      (RefSpec_construct ct RefSpec_known).
    split; [| split].
    + intros r. split.
      * destruct b; try discriminate; intros E; injection E as <-;
          eexists _, _, _;
          (split; [right; split; reflexivity
                  | split; [discriminate | reflexivity]]).
      * intros (s & d0 & f & [E | [E ->]] & Hd & ->); [discriminate E |].
        injection E as -> ->. destruct d0; try congruence; reflexivity.
    + split.
      * destruct b; intros [msg E]; try discriminate E.
        exists a, []. split; [reflexivity | cbn; lia].
      * intros (s & rest & E & _). injection E as -> -> _.
        eexists. reflexivity.
    + split.
      * destruct b; intros [msg E]; discriminate E.
      * intros [H _]. cbn in H. congruence.
  - rewrite (RefSpec_construct ct RefSpec_known).
    split; [| split].
    + intros r. split.
      * destruct b; try discriminate; intros E; injection E as <-;
          eexists _, _, _;
          (split; [left; reflexivity
                  | split; [discriminate | reflexivity]]).
      * intros (s & d0 & f & [E | [E _]] & Hd & ->); [| discriminate E].
        injection E as -> -> ->. destruct d0; try congruence; reflexivity.
    + split.
      * destruct b; intros [msg E]; try discriminate E.
        exists a, [c]. split; [reflexivity | cbn; lia].
      * intros (s & rest & E & _). injection E as -> -> _.
        eexists. reflexivity.
    + split.
      * destruct b; intros [msg E]; discriminate E.
      * intros [_ H]. cbn in H. congruence.
Qed.

End RefSpecState.

Lemma RefSpec_attributes_are_the_arguments_witness :
  find_class interface "RefSpec" = Some RefSpec
  /\ instantiate interface 1 "RefSpec"
       [VStr "master"; VStr "refs/heads/master"; VBool true]
     = Return sample_refspec
  /\ load interface sample_refspec "source" = Return (VStr "master")
  /\ load interface sample_refspec "destination"
     = Return (VStr "refs/heads/master")
  /\ load interface sample_refspec "force" = Return (VBool true).
Proof.
  destruct (RefSpec_attributes_are_the_arguments interface eq_refl 0
              (VStr "master") (VStr "refs/heads/master") (VBool true)
              sample_refspec eq_refl) as (A & B & C & _).
  split; [reflexivity | split; [reflexivity |]].
  split; [exact A | split; [exact B | exact C]].
Defined.

Lemma RefSpec_assignment_round_trip_witness :
  find_class interface "RefSpec" = Some RefSpec
  /\ In "destination" RefSpec_slots
  /\ exists r',
       store interface sample_refspec "destination" VNone = Return r'
       /\ load interface r' "destination" = Return VNone
       /\ forall other, In other RefSpec_slots -> other <> "destination" ->
            load interface r' other = load interface sample_refspec other.
Proof.
  assert (Hn : In "destination" RefSpec_slots) by (right; left; reflexivity).
  split; [reflexivity | split; [exact Hn |]].
  exact (RefSpec_assignment_round_trip interface eq_refl
           [("source", VStr "master"); ("destination", VStr "refs/heads/master");
            ("force", VBool true)] "destination" VNone Hn).
Defined.

Lemma RefSpec_admits_no_other_attribute_witness :
  find_class interface "RefSpec" = Some RefSpec
  /\ mem "note" RefSpec_slots = false
  /\ prefix "__" "note" = false
  /\ raises (store interface sample_refspec "note" (VStr "x")) AttributeError.
Proof.
  split; [reflexivity | split; [reflexivity | split; [reflexivity |]]].
  exact (RefSpec_admits_no_other_attribute interface eq_refl
           [("source", VStr "master"); ("destination", VStr "refs/heads/master");
            ("force", VBool true)] "note" (VStr "x") eq_refl eq_refl).
Defined.

Lemma RefSpec_init_stores_before_it_checks_witness :
  find_class interface "RefSpec" = Some RefSpec
  /\ exists r',
       call_special interface 1 sample_refspec "__init__"
         [VStr "next"; VNone; VBool false]
       = (Raise (Exn ValueError "Destination must be set"), r')
       /\ load interface r' "source" = Return (VStr "next")
       /\ load interface r' "destination" = Return VNone
       /\ load interface r' "force" = Return (VBool false).
Proof.
  split; [reflexivity |].
  exact (RefSpec_init_stores_before_it_checks interface eq_refl 0
           [("source", VStr "master"); ("destination", VStr "refs/heads/master");
            ("force", VBool true)] (VStr "next") (VBool false)).
Defined.

Lemma delete_destination_follows_assignment_witness :
  find_class interface "RefSpec" = Some RefSpec
  /\ instantiate interface 1 "RefSpec"
       [VStr "master"; VStr "refs/heads/master"; VBool true]
     = Return sample_refspec
  /\ store interface sample_refspec "source" VNone
     = Return (refspec VNone (VStr "refs/heads/master") (VBool true))
  /\ call_method interface 1
       (refspec VNone (VStr "refs/heads/master") (VBool true))
       "delete_destination" []
     = (Return (VBool true),
        refspec VNone (VStr "refs/heads/master") (VBool true)).
Proof.
  split; [reflexivity | split; [reflexivity | split; [reflexivity |]]].
  exact (delete_destination_follows_assignment interface eq_refl 0 0
           (VStr "master") (VStr "refs/heads/master") (VBool true)
           sample_refspec VNone
           (refspec VNone (VStr "refs/heads/master") (VBool true))
           eq_refl eq_refl).
Defined.

Lemma RefSpec_construction_outcomes_witness :
  find_class interface "RefSpec" = Some RefSpec
  /\ raises (instantiate interface 1 "RefSpec" [VStr "master"]) TypeError
  /\ raises (instantiate interface 1 "RefSpec" [VStr "master"; VNone])
            ValueError.
Proof.
  split; [reflexivity | split].
  - apply (proj2 (proj2 (RefSpec_construction_outcomes interface eq_refl 0
                           [VStr "master"]))).
    split; discriminate.
  - apply (proj1 (proj2 (RefSpec_construction_outcomes interface eq_refl 0
                           [VStr "master"; VNone]))).
    exists (VStr "master"), []. split; [reflexivity | cbn; lia].
Defined.

(** ** Flags as bit masks *)

Lemma land_pow2_nonzero m i :
  (0 <= i)%Z -> Z.land m (2 ^ i) <> 0%Z <-> Z.testbit m i = true.
Proof.
  intros Hi. split.
  - intros Hne. destruct (Z.testbit m i) eqn:T; [reflexivity |].
    exfalso. apply Hne. apply Z.bits_inj'. intros k Hk.
    rewrite Z.land_spec, Z.pow2_bits_eqb, Z.bits_0 by assumption.
    destruct (Z.eqb_spec i k) as [<- | _].
    + now rewrite T.
    + apply andb_false_r.
  - intros T E.
    assert (B : Z.testbit (Z.land m (2 ^ i)) i = true).
    { rewrite Z.land_spec, T, Z.pow2_bits_eqb, Z.eqb_refl by assumption.
      reflexivity. }
    rewrite E, Z.bits_0 in B. discriminate B.
Qed.

Lemma testbit_fold_lor vs i :
  Z.testbit (fold_right Z.lor 0%Z vs) i = existsb (fun v => Z.testbit v i) vs.
Proof.
  induction vs as [| v vs IH]; cbn.
  - apply Z.bits_0.
  - now rewrite Z.lor_spec, IH.
Qed.

Lemma lor_below_pow2 a b n :
  (0 <= a < 2 ^ n)%Z -> (0 <= b < 2 ^ n)%Z -> (0 <= Z.lor a b < 2 ^ n)%Z.
Proof.
  intros Ha Hb.
  assert (Hn : (0 <= n)%Z).
  { destruct (Z.le_gt_cases 0 n) as [H | H]; [exact H |].
    rewrite Z.pow_neg_r in Ha by assumption. lia. }
  assert (N : (0 <= Z.lor a b)%Z) by (apply Z.lor_nonneg; lia).
  split; [exact N |].
  destruct (Z.eq_dec (Z.lor a b) 0) as [E | E]; [rewrite E; lia |].
  apply Z.log2_lt_pow2; [lia |].
  rewrite Z.log2_lor by lia.
  assert (La : (a = 0 \/ Z.log2 a < n)%Z).
  { destruct (Z.eq_dec a 0); [now left | right].
    apply Z.log2_lt_pow2; lia. }
  assert (Lb : (b = 0 \/ Z.log2 b < n)%Z).
  { destruct (Z.eq_dec b 0); [now left | right].
    apply Z.log2_lt_pow2; lia. }
  destruct La as [-> | La], Lb as [-> | Lb]; cbn [Z.log2] in *.
  - cbn in E. congruence.
  - rewrite Z.max_r by apply Z.log2_nonneg. exact Lb.
  - rewrite Z.max_l by apply Z.log2_nonneg. exact La.
  - apply Z.max_lub_lt; assumption.
Qed.

Ltac index_of_flag :=
  first [ exists 0%nat; repeat split; cbn; lia
        | exists 1%nat; repeat split; cbn; lia
        | exists 2%nat; repeat split; cbn; lia
        | exists 3%nat; repeat split; cbn; lia
        | exists 4%nat; repeat split; cbn; lia
        | exists 5%nat; repeat split; cbn; lia
        | exists 6%nat; repeat split; cbn; lia
        | exists 7%nat; repeat split; cbn; lia
        | exists 8%nat; repeat split; cbn; lia
        | exists 9%nat; repeat split; cbn; lia
        | exists 10%nat; repeat split; cbn; lia ].

Lemma flag_index c fnames f :
  In (c, fnames) flag_classes -> In f fnames ->
  exists i, nth_error fnames i = Some f
            /\ class_int c f = Some (2 ^ Z.of_nat i)%Z
            /\ (i < length fnames)%nat.
Proof.
  intros Hc Hf. cbn in Hc.
  destruct Hc as [Hc | [Hc | []]]; injection Hc as <- <-; cbn in Hf;
    repeat (destruct Hf as [<- | Hf]; [index_of_flag |]); contradiction.
Qed.

Lemma flag_value_index c fnames f i :
  In (c, fnames) flag_classes -> nth_error fnames i = Some f ->
  flag_value c f = (2 ^ Z.of_nat i)%Z.
Proof.
  intros Hc Hf. cbn in Hc.
  destruct Hc as [Hc | [Hc | []]]; injection Hc as <- <-;
    do 11 (destruct i as [| i];
           [first [discriminate Hf | injection Hf as <-; reflexivity] |]);
    destruct i; discriminate Hf.
Qed.

(** X7.  A mask built by or-ing any selection of the flags of one class
    answers exactly for that selection: its bitwise AND with a flag of
    the class is different from zero if and only if the flag is among
    those selected. *)
Theorem flag_mask_tests_membership c fnames names f :
  In (c, fnames) flag_classes ->
  incl names fnames ->
  In f fnames ->
  Z.land (flag_mask c names) (flag_value c f) <> 0%Z <-> In f names.
Proof.
  intros Hc Hsub Hf.
  destruct (flag_index c fnames f Hc Hf) as (i & Hi & _ & _).
  rewrite (flag_value_index c fnames f i Hc Hi).
  rewrite land_pow2_nonzero by lia.
  unfold flag_mask. rewrite testbit_fold_lor, existsb_exists. split.
  - intros (x & Hx & Tx). apply in_map_iff in Hx.
    destruct Hx as (g & <- & Hg).
    destruct (flag_index c fnames g Hc (Hsub g Hg)) as (j & Hj & _ & _).
    rewrite (flag_value_index c fnames g j Hc Hj) in Tx.
    rewrite Z.pow2_bits_eqb in Tx by lia.
    apply Z.eqb_eq in Tx. apply Nat2Z.inj in Tx. subst j.
    congruence.
  - intros Hin. exists (2 ^ Z.of_nat i)%Z. split.
    + apply in_map_iff. exists f. split; [| exact Hin].
      exact (flag_value_index c fnames f i Hc Hi).
    + rewrite Z.pow2_bits_eqb by lia. apply Z.eqb_refl.
Qed.

Lemma flag_mask_tests_membership_witness :
  In (PushInfo, PushInfo_flag_names) flag_classes
  /\ incl ["REJECTED"; "ERROR"] PushInfo_flag_names
  /\ In "ERROR" PushInfo_flag_names
  /\ flag_mask PushInfo ["REJECTED"; "ERROR"] = 1032%Z
  /\ Z.land (flag_mask PushInfo ["REJECTED"; "ERROR"])
            (flag_value PushInfo "ERROR") <> 0%Z.
Proof.
  assert (Hc : In (PushInfo, PushInfo_flag_names) flag_classes)
    by (left; reflexivity).
  assert (Hs : incl ["REJECTED"; "ERROR"] PushInfo_flag_names).
  { intros x [<- | [<- | []]]; cbn; tauto. }
  assert (Hf : In "ERROR" PushInfo_flag_names) by (cbn; tauto).
  split; [exact Hc | split; [exact Hs | split; [exact Hf | split]]].
  - reflexivity.
  - apply (flag_mask_tests_membership PushInfo PushInfo_flag_names
             ["REJECTED"; "ERROR"] "ERROR" Hc Hs Hf).
    right; left; reflexivity.
Defined.

(** X8.  Every mask of flags of one class fits in as many bits as the
    class has flags: eleven for [PushInfo], eight for [FetchInfo]. *)
Theorem flag_mask_is_bounded c fnames names :
  In (c, fnames) flag_classes ->
  incl names fnames ->
  (0 <= flag_mask c names < 2 ^ Z.of_nat (length fnames))%Z.
Proof.
  intros Hc Hsub. unfold flag_mask.
  induction names as [| g names IH]; cbn [map fold_right].
  - split; [lia | apply Z.pow_pos_nonneg; lia].
  - apply lor_below_pow2.
    + destruct (flag_index c fnames g Hc (Hsub g (or_introl eq_refl)))
        as (j & Hj & _ & Lj).
      rewrite (flag_value_index c fnames g j Hc Hj). split.
      * apply Z.pow_nonneg. lia.
      * apply Z.pow_lt_mono_r; lia.
    + apply IH. intros x Hx. apply Hsub. now right.
Qed.

Lemma flag_mask_is_bounded_witness :
  In (FetchInfo, FetchInfo_flag_names) flag_classes
  /\ incl FetchInfo_flag_names FetchInfo_flag_names
  /\ flag_mask FetchInfo FetchInfo_flag_names = 255%Z
  /\ (0 <= flag_mask FetchInfo FetchInfo_flag_names < 2 ^ 8)%Z.
Proof.
  assert (Hc : In (FetchInfo, FetchInfo_flag_names) flag_classes)
    by (right; left; reflexivity).
  assert (Hs : incl FetchInfo_flag_names FetchInfo_flag_names)
    by (intros x Hx; exact Hx).
  split; [exact Hc | split; [exact Hs | split; [reflexivity |]]].
  exact (flag_mask_is_bounded FetchInfo FetchInfo_flag_names
           FetchInfo_flag_names Hc Hs).
Defined.

(** X9.  A flag is read off a direct instance as it is off the class,
    as in [info.flags & info.REJECTED], and cannot be assigned through an
    instance: the assignment raises [AttributeError]. *)
Theorem flags_are_read_only_on_instances ct c fnames f v :
  In (c, fnames) flag_classes ->
  find_class ct (class_name c) = Some c ->
  In f fnames ->
  load ct (VInst (class_name c) []) f = Return (VInt (flag_value c f))
  /\ raises (store ct (VInst (class_name c) []) f v) AttributeError.
Proof.
  intros Hc Hk Hf.
  destruct (flag_index c fnames f Hc Hf) as (i & Hi & Hv & _).
  assert (T : type_lookup c f = Some (TAttr (VInt (2 ^ Z.of_nat i)))).
  { unfold class_int in Hv. destruct (type_lookup c f) as [[| g | [| | n | | |]] |];
      try discriminate Hv. now injection Hv as ->. }
  assert (D : has_dict c = false).
  { cbn in Hc. destruct Hc as [Hc | [Hc | []]]; injection Hc as <- <-;
      reflexivity. }
  unfold flag_value. rewrite Hv. split.
  - unfold load, resolve. now rewrite Hk, T.
  - unfold store. rewrite Hk, T, D. eexists. reflexivity.
Qed.

Lemma flags_are_read_only_on_instances_witness :
  In (FetchInfo, FetchInfo_flag_names) flag_classes
  /\ find_class interface "FetchInfo" = Some FetchInfo
  /\ In "REJECTED" FetchInfo_flag_names
  /\ load interface (VInst "FetchInfo" []) "REJECTED" = Return (VInt 16)
  /\ raises (store interface (VInst "FetchInfo" []) "REJECTED" (VInt 0))
            AttributeError.
Proof.
  assert (Hc : In (FetchInfo, FetchInfo_flag_names) flag_classes)
    by (right; left; reflexivity).
  assert (Hf : In "REJECTED" FetchInfo_flag_names) by (cbn; tauto).
  split; [exact Hc | split; [reflexivity | split; [exact Hf |]]].
  exact (flags_are_read_only_on_instances interface FetchInfo
           FetchInfo_flag_names "REJECTED" (VInt 0) Hc eq_refl Hf).
Defined.

(** X10.  The two classes do not share their numbering: a name that both
    use for a flag has the same value in both only when it is [NEW_TAG]
    or [NEW_HEAD]. *)
Theorem shared_flag_names_disagree name :
  In name PushInfo_flag_names ->
  In name FetchInfo_flag_names ->
  flag_value PushInfo name = flag_value FetchInfo name
  <-> name = "NEW_TAG" \/ name = "NEW_HEAD".
Proof.
  intros Hp _. cbn in Hp.
  repeat (destruct Hp as [<- | Hp];
          [ split; [ intros E; first [ discriminate E | tauto ]
                   | intros [E | E]; first [ discriminate E | reflexivity ] ]
          | ]).
  contradiction.
Qed.

Lemma shared_flag_names_disagree_witness :
  In "ERROR" PushInfo_flag_names
  /\ In "ERROR" FetchInfo_flag_names
  /\ flag_value PushInfo "ERROR" = 1024%Z
  /\ flag_value FetchInfo "ERROR" = 128%Z
  /\ ~ ("ERROR" = "NEW_TAG" \/ "ERROR" = "NEW_HEAD").
Proof.
  assert (Hp : In "ERROR" PushInfo_flag_names) by (cbn; tauto).
  assert (Hq : In "ERROR" FetchInfo_flag_names) by (cbn; tauto).
  split; [exact Hp | split; [exact Hq | split; [reflexivity | split]]].
  - reflexivity.
  - intros H.
    apply (proj2 (shared_flag_names_disagree "ERROR" Hp Hq)) in H.
    discriminate H.
Defined.

(** ** Construction of the records and of a root path database *)

(** X11.  [PushInfo] and [FetchInfo] define no [__init__]: constructing
    one with any argument raises [TypeError], so a direct instance cannot
    be given its announced members at construction either. *)
Theorem info_records_take_no_arguments ct depth c members args :
  In (c, members) info_classes ->
  find_class ct (class_name c) = Some c ->
  args <> [] ->
  raises (instantiate ct (S depth) (class_name c) args) TypeError.
Proof.
  intros Hc Hk Ha. unfold instantiate, call_special. rewrite Hk.
  erewrite invoke_special_method with (f := object___init__);
    [| exact Hk |].
  - destruct args as [| a args]; [congruence |]. eexists. reflexivity.
  - cbn in Hc. destruct Hc as [Hc | [Hc | []]]; injection Hc as <- <-;
      reflexivity.
Qed.

Lemma info_records_take_no_arguments_witness :
  In (PushInfo, PushInfo_members) info_classes
  /\ find_class interface "PushInfo" = Some PushInfo
  /\ [VInt 8; VStr "refs/heads/master"] <> []
  /\ raises (instantiate interface 1 "PushInfo"
               [VInt 8; VStr "refs/heads/master"]) TypeError.
Proof.
  assert (Hc : In (PushInfo, PushInfo_members) info_classes)
    by (left; reflexivity).
  assert (Ha : [VInt 8; VStr "refs/heads/master"] <> []) by discriminate.
  split; [exact Hc | split; [reflexivity | split; [exact Ha |]]].
  exact (info_records_take_no_arguments interface 0 PushInfo PushInfo_members
           [VInt 8; VStr "refs/heads/master"] Hc eq_refl Ha).
Defined.

(** X12.  [RootPathDB.__init__] hands its argument to the [__init__] of
    [object], which takes none: constructing a [RootPathDB] raises
    [TypeError] for every root path, and for every other number of
    arguments as well. *)
Theorem RootPathDB_cannot_be_constructed ct depth args :
  find_class ct "RootPathDB" = Some RootPathDB ->
  raises (instantiate ct (S depth) "RootPathDB" args) TypeError.
Proof.
  intros Hk. unfold instantiate, call_special. rewrite Hk.
  erewrite invoke_special_method; [| exact Hk | reflexivity].
  destruct args as [| a [| b args]]; eexists; reflexivity.
Qed.

Lemma RootPathDB_cannot_be_constructed_witness :
  find_class all_classes "RootPathDB" = Some RootPathDB
  /\ raises (instantiate all_classes 1 "RootPathDB" [VStr "/repo/.git/objects"])
            TypeError.
Proof.
  split; [reflexivity |].
  exact (RootPathDB_cannot_be_constructed all_classes 0
           [VStr "/repo/.git/objects"] eq_refl).
Defined.

(** ** What a subclass inherits *)

Lemma default_access_EmptyDB : default_access EmptyDB.
Proof. repeat split. Qed.

(** X13.  The methods that an interface leaves to its subclasses stay
    abstract until a subclass defines them: on an instance of the
    interface class, or of a class derived from it by single inheritance
    that does not bind the name and keeps the attribute access of
    [object], a call with the arguments that the method takes raises
    [NotImplementedError] and leaves the instance as it was. *)
Theorem abstract_methods_are_inherited
  ct depth base methods name n cn c attrs args :
  In (base, methods) abstract_methods ->
  In (name, n) methods ->
  find_class ct cn = Some c ->
  default_access c ->
  inherits c base name ->
  assoc name attrs = None ->
  length args = n ->
  exists msg,
    call_method ct (S depth) (VInst cn attrs) name args
    = (Raise (Exn NotImplementedError msg), VInst cn attrs).
Proof.
  intros Hb Hm Hk _ Hi Ha Hl.
  assert (E : exists f,
             type_lookup base name = Some (TFn f)
             /\ forall I self, exists msg,
                  f I self args = (Raise (Exn NotImplementedError msg), self)).
  { cbn in Hb.
    destruct Hb as [Hb | [Hb | [Hb | [Hb | [Hb | []]]]]];
      injection Hb as <- <-; cbn in Hm;
      repeat (destruct Hm as [Hm | Hm];
              [ injection Hm as <- <-; eexists; split; [reflexivity |];
                intros I self;
                destruct args as [| x [| y args]]; try discriminate Hl;
                eexists; reflexivity | ]);
      contradiction. }
  destruct E as (f & Hf & Hr).
  unfold call_method.
  erewrite invoke_method; [| exact Hk | | exact Ha].
  - apply Hr.
  - now rewrite (inherits_lookup c base name Hi).
Qed.

Lemma abstract_methods_are_inherited_witness :
  In (ObjectDBR, ObjectDBR_other_queries) abstract_methods
  /\ In ("info", 1%nat) ObjectDBR_other_queries
  /\ find_class all_classes "EmptyDB" = Some EmptyDB
  /\ default_access EmptyDB
  /\ inherits EmptyDB ObjectDBR "info"
  /\ exists msg,
       call_method all_classes 1 (VInst "EmptyDB" []) "info" [VStr "sha"]
       = (Raise (Exn NotImplementedError msg), VInst "EmptyDB" []).
Proof.
  assert (Hb : In (ObjectDBR, ObjectDBR_other_queries) abstract_methods)
    by (left; reflexivity).
  assert (Hm : In ("info", 1%nat) ObjectDBR_other_queries)
    by (cbn; tauto).
  assert (Hi : inherits EmptyDB ObjectDBR "info").
  { right. split; [reflexivity | split; [exact I | left; reflexivity]]. }
  split; [exact Hb | split; [exact Hm | split; [reflexivity | split]]].
  - exact default_access_EmptyDB.
  - split; [exact Hi |].
    exact (abstract_methods_are_inherited all_classes 0 ObjectDBR
             ObjectDBR_other_queries "info" 1%nat "EmptyDB" EmptyDB []
             [VStr "sha"] Hb Hm eq_refl default_access_EmptyDB Hi
             eq_refl eq_refl).
Defined.

(** X14.  The two methods whose body is a docstring are inherited as
    they are: on an instance of a class derived by single inheritance
    from [ObjectDBR] that does not bind [partial_to_complete_sha], or
    from [CachingDB] that does not bind [update_cache], and that keeps
    the attribute access of [object], the call returns [None] without
    raising and leaves the instance as it was. *)
Theorem silent_methods_are_inherited
  ct depth base name arities cn c attrs args :
  In (base, name, arities) silent_methods ->
  find_class ct cn = Some c ->
  default_access c ->
  inherits c base name ->
  assoc name attrs = None ->
  In (length args) arities ->
  call_method ct (S depth) (VInst cn attrs) name args
  = (Return VNone, VInst cn attrs).
Proof.
  intros Hb Hk _ Hi Ha Hl. unfold call_method. cbn in Hb.
  destruct Hb as [Hb | [Hb | []]]; injection Hb as <- <- <-;
    (erewrite invoke_method;
     [| exact Hk | rewrite (inherits_lookup _ _ _ Hi); reflexivity | exact Ha]);
    cbn in Hl.
  - destruct Hl as [Hl | []].
    destruct args as [| x [| y [| z args]]]; try discriminate Hl.
    reflexivity.
  - destruct Hl as [Hl | [Hl | []]];
      destruct args as [| x [| y args]]; try discriminate Hl; reflexivity.
Qed.

Lemma silent_methods_are_inherited_witness :
  In (ObjectDBR, "partial_to_complete_sha", [2%nat]) silent_methods
  /\ find_class all_classes "EmptyDB" = Some EmptyDB
  /\ default_access EmptyDB
  /\ inherits EmptyDB ObjectDBR "partial_to_complete_sha"
  /\ call_method all_classes 1 (VInst "EmptyDB" []) "partial_to_complete_sha"
       [VStr "ab"; VInt 3]
     = (Return VNone, VInst "EmptyDB" []).
Proof.
  assert (Hb : In (ObjectDBR, "partial_to_complete_sha", [2%nat]) silent_methods)
    by (left; reflexivity).
  assert (Hi : inherits EmptyDB ObjectDBR "partial_to_complete_sha").
  { right. split; [reflexivity | split; [exact I | left; reflexivity]]. }
  split; [exact Hb | split; [reflexivity | split]].
  - exact default_access_EmptyDB.
  - split; [exact Hi |].
    exact (silent_methods_are_inherited all_classes 0 ObjectDBR
             "partial_to_complete_sha" [2%nat] "EmptyDB" EmptyDB []
             [VStr "ab"; VInt 3] Hb eq_refl default_access_EmptyDB Hi eq_refl
             (or_introl eq_refl)).
Defined.

(** X15.  In a class that inherits [__contains__] from [ObjectDBR] by
    single inheritance, keeps the attribute access of [object] and
    defines [has_obj], the membership operator is [has_obj]: when
    [has_obj(sha)] returns [None], a bool, an int, a str or a method,
    [sha in db] is the truth value of that result, and when it raises,
    [sha in db] raises the same. *)
Theorem contains_delegates_to_has_obj ct depth cn c attrs sha f :
  find_class ct cn = Some c ->
  default_access c ->
  inherits c ObjectDBR "__contains__" ->
  type_lookup c "has_obj" = Some (TFn f) ->
  assoc "has_obj" attrs = None ->
  (forall v,
     fst (f (interp_at ct depth) (VInst cn attrs) [sha]) = Return v ->
     is_instance v = false ->
     py_in ct (S (S depth)) sha (VInst cn attrs) = Return (truthy v))
  /\ (forall e,
        fst (f (interp_at ct depth) (VInst cn attrs) [sha]) = Raise e ->
        py_in ct (S (S depth)) sha (VInst cn attrs) = Raise e).
Proof.
  intros Hk _ Hi Hf Ha.
  assert (Hc : type_lookup c "__contains__"
               = Some (TFn (def1 ObjectDBR___contains__))).
  { now rewrite (inherits_lookup _ _ _ Hi). }
  assert (P : py_in ct (S (S depth)) sha (VInst cn attrs)
              = match fst (f (interp_at ct depth) (VInst cn attrs) [sha]) with
                | Return v => py_bool ct (S (S depth)) v
                | Raise e => Raise e
                end).
  { unfold py_in, call_special, resolve_special. rewrite Hk, Hc.
    erewrite invoke_special_method; [| exact Hk | exact Hc].
    unfold def1, ObjectDBR___contains__, call_self, interp_at; cbn [i_call].
    erewrite invoke_method; [| exact Hk | exact Hf | exact Ha].
    reflexivity. }
  split.
  - intros v E Hv. rewrite P, E. now destruct v.
  - intros e E. now rewrite P, E.
Qed.

Lemma default_access_LegacyDB : default_access LegacyDB.
Proof. repeat split. Qed.

Lemma contains_delegates_to_has_obj_witness :
  find_class all_classes "LegacyDB" = Some LegacyDB
  /\ default_access LegacyDB
  /\ inherits LegacyDB ObjectDBR "__contains__"
  /\ py_in all_classes 2 (VStr "sha") (VInst "LegacyDB" [("known", VInt 0)])
     = Return false
  /\ py_in all_classes 2 (VStr "sha") (VInst "LegacyDB" [("known", VInt 2)])
     = Return true
  /\ raises (py_in all_classes 2 (VStr "sha") (VInst "LegacyDB" []))
            AttributeError.
Proof.
  assert (Hi : inherits LegacyDB ObjectDBR "__contains__").
  { right. split; [reflexivity | split; [exact I | left; reflexivity]]. }
  split; [reflexivity | split; [exact default_access_LegacyDB |]].
  split; [exact Hi | split; [| split]].
  - exact (proj1 (contains_delegates_to_has_obj all_classes 0 "LegacyDB"
                    LegacyDB [("known", VInt 0)] (VStr "sha")
                    (def1 LegacyDB_has_obj)
                    eq_refl default_access_LegacyDB Hi eq_refl eq_refl)
             (VInt 0) eq_refl eq_refl).
  - exact (proj1 (contains_delegates_to_has_obj all_classes 0 "LegacyDB"
                    LegacyDB [("known", VInt 2)] (VStr "sha")
                    (def1 LegacyDB_has_obj)
                    eq_refl default_access_LegacyDB Hi eq_refl eq_refl)
             (VInt 2) eq_refl eq_refl).
  - eexists.
    exact (proj2 (contains_delegates_to_has_obj all_classes 0 "LegacyDB"
                    LegacyDB [] (VStr "sha") (def1 LegacyDB_has_obj)
                    eq_refl default_access_LegacyDB Hi eq_refl eq_refl)
             _ eq_refl).
Defined.

(** X16.  Membership never consults [has_object]: in a class that
    inherits [__contains__] from [ObjectDBR] by single inheritance, keeps
    the attribute access of [object] and binds no [has_obj], [sha in db]
    raises [AttributeError] for every digest, whatever [has_object] the
    class defines. *)
Theorem membership_needs_has_obj ct depth cn c attrs sha :
  find_class ct cn = Some c ->
  default_access c ->
  inherits c ObjectDBR "__contains__" ->
  inherits c ObjectDBR "has_obj" ->
  assoc "has_obj" attrs = None ->
  py_in ct (S depth) sha (VInst cn attrs) = Raise (no_attribute cn "has_obj").
Proof.
  intros Hk _ Hc Hh Ha. apply (contains_needs_has_obj ct depth cn c).
  - exact Hk.
  - now rewrite (inherits_lookup _ _ _ Hc).
  - now rewrite (inherits_lookup _ _ _ Hh).
  - exact Ha.
Qed.

Lemma membership_needs_has_obj_witness :
  find_class all_classes "EmptyDB" = Some EmptyDB
  /\ default_access EmptyDB
  /\ inherits EmptyDB ObjectDBR "__contains__"
  /\ inherits EmptyDB ObjectDBR "has_obj"
  /\ py_in all_classes 1 (VStr "sha") (VInst "EmptyDB" [])
     = Raise (no_attribute "EmptyDB" "has_obj").
Proof.
  assert (Hc : inherits EmptyDB ObjectDBR "__contains__").
  { right. split; [reflexivity | split; [exact I | left; reflexivity]]. }
  assert (Hh : inherits EmptyDB ObjectDBR "has_obj").
  { right. split; [reflexivity | split; [exact I | left; reflexivity]]. }
  split; [reflexivity | split; [exact default_access_EmptyDB |]].
  split; [exact Hc | split; [exact Hh |]].
  exact (membership_needs_has_obj all_classes 0 "EmptyDB" EmptyDB []
           (VStr "sha") eq_refl default_access_EmptyDB Hc Hh eq_refl).
Defined.
